(** * wmsproxy: an XYZ tile gateway in front of NOAA's WMS radar service

    A shallow embedding of the three revisions of [main.go] that the
    repository carries, and the properties its specification states about
    them.

    - [Simple]  : the first revision (one radar layer, the upstream PNG is
                  streamed through);
    - [Overlay] : the revision with named areas and the hazards overlay;
    - [Cached]  : the revision with the timestamp cache, [/frames] and the
                  [time] parameter, the one the specification takes as the
                  system of record.

    Conventions. Go's [int] is 64 bits wide; [float64] is the kernel's
    binary64, so the bounding box is computed bit for bit as the program
    computes it; strings are byte strings; a Go [error] is its message.
    A handler is a function from the world before to an outcome and the
    world after; requests are handled one after the other (the lock around
    the cache is not modelled). The upstream servers, and the decoders fed
    with what they send, are a parameter. *)

From Stdlib Require Import ZArith QArith Qabs Bool List Ascii String Lia.
From Stdlib Require Import DecimalString DecimalPos.
From Stdlib Require Import PrimFloat FloatOps SpecFloat FloatAxioms.
From Stdlib Require Import Uint63.
From stdpp Require Import gmap strings.

Local Open Scope string_scope.
Local Open Scope Z_scope.

(** ** Results and errors *)

(** A Go pair [(v, err)] in which exactly one side is meaningful. *)
Inductive Result (A : Type) : Type :=
| Ok (v : A)
| Err (msg : string).
Arguments Ok {A} v.
Arguments Err {A} msg.

(** ** The parts of Go's standard library the handlers call *)

Module GoStrings.

(** [strings.Split(s, sep)] for a one-byte separator: always at least one
    piece, one more than there are separators. *)
Fixpoint Split (s : string) (sep : ascii) : list string :=
  match s with
  | EmptyString => [EmptyString]
  | String c rest =>
      if Ascii.eqb c sep then EmptyString :: Split rest sep
      else match Split rest sep with
           | [] => [String c EmptyString]
           | piece :: pieces => String c piece :: pieces
           end
  end.

(** [strings.TrimSuffix(s, suffix)]: [s] without the suffix when it ends
    in it, [s] itself otherwise. *)
Fixpoint TrimSuffix (s suffix : string) : string :=
  match s with
  | EmptyString => EmptyString
  | String c rest =>
      if String.eqb s suffix then EmptyString
      else String c (TrimSuffix rest suffix)
  end.

Definition lowerByte (c : ascii) : ascii :=
  let n := N_of_ascii c in
  if ((65 <=? n) && (n <=? 90))%N then ascii_of_N (n + 32) else c.

(** [strings.ToLower] on ASCII text (bytes above 127 are left alone;
    Go would map the runes they encode). *)
Fixpoint ToLower (s : string) : string :=
  match s with
  | EmptyString => EmptyString
  | String c rest => String (lowerByte c) (ToLower rest)
  end.

Fixpoint Join (pieces : list string) (sep : string) : string :=
  match pieces with
  | [] => ""
  | [p] => p
  | p :: rest => p +:+ sep +:+ Join rest sep
  end.

End GoStrings.

Module GoStrconv.

Inductive NumError := ErrSyntax | ErrRange.

Definition isDigit (c : ascii) : bool :=
  let n := N_of_ascii c in ((48 <=? n) && (n <=? 57))%N.

Definition digitVal (c : ascii) : Z := Z.of_N (N_of_ascii c) - 48.

Definition maxUint64 : Z := 2 ^ 64 - 1.

(** The digit loop of [ParseUint(s, 10, 64)]: a byte that is no digit is
    a syntax error, a value past [maxUint64] a range error, reported
    where the loop meets it. *)
Fixpoint parseUintLoop (s : string) (n : Z) : Z * option NumError :=
  match s with
  | EmptyString => (n, None)
  | String c rest =>
      if isDigit c then
        if n >=? maxUint64 / 10 + 1 then (maxUint64, Some ErrRange)
        else
          let n1 := n * 10 + digitVal c in
          if n1 >? maxUint64 then (maxUint64, Some ErrRange)
          else parseUintLoop rest n1
      else (0, Some ErrSyntax)
  end.

(** [strconv.Atoi]: an optional sign and at least one decimal digit. On a
    syntax error the value is 0, on a range error the nearest [int]. *)
Definition Atoi (s : string) : Z * option NumError :=
  match s with
  | EmptyString => (0, Some ErrSyntax)
  | String c rest =>
      let neg := Ascii.eqb c "-" in
      let digits := if neg || Ascii.eqb c "+" then rest else s in
      match digits with
      | EmptyString => (0, Some ErrSyntax)
      | _ =>
          match parseUintLoop digits 0 with
          | (_, Some ErrSyntax) => (0, Some ErrSyntax)
          | (un, e) =>
              if negb neg && (un >=? 2 ^ 63) then (2 ^ 63 - 1, Some ErrRange)
              else if neg && (un >? 2 ^ 63) then (- 2 ^ 63, Some ErrRange)
              else (if neg then - un else un, e)
          end
      end
  end.

(** [strconv.ParseBool]. *)
Definition ParseBool (s : string) : bool * option NumError :=
  if existsb (String.eqb s) ["1"; "t"; "T"; "TRUE"; "true"; "True"]
  then (true, None)
  else if existsb (String.eqb s) ["0"; "f"; "F"; "FALSE"; "false"; "False"]
  then (false, None)
  else (false, Some ErrSyntax).

(** [strconv.Itoa], also what [%d] prints. *)
Definition Itoa (n : Z) : string := NilZero.string_of_int (Z.to_int n).

End GoStrconv.

Module GoUrl.

Definition hexDigit (n : N) : ascii :=
  if (n <? 10)%N then ascii_of_N (48 + n) else ascii_of_N (55 + n).

(** The bytes [url.QueryEscape] keeps: letters, digits, [-], [_], [.]
    and [~]. *)
Definition unreserved (c : ascii) : bool :=
  let n := N_of_ascii c in
  (((48 <=? n) && (n <=? 57)) || ((65 <=? n) && (n <=? 90))
   || ((97 <=? n) && (n <=? 122))
   || (n =? 45) || (n =? 95) || (n =? 46) || (n =? 126))%N.

Fixpoint QueryEscape (s : string) : string :=
  match s with
  | EmptyString => EmptyString
  | String c rest =>
      if unreserved c then String c (QueryEscape rest)
      else if Ascii.eqb c " " then String "+" (QueryEscape rest)
      else
        let n := N_of_ascii c in
        String "%" (String (hexDigit (n / 16)) (String (hexDigit (n mod 16))
                                                  (QueryEscape rest)))
  end.

(** [url.Values] in the order of its [Add] calls. *)
Definition Values := list (string * string).

Definition Add (v : Values) (key value : string) : Values :=
  (v ++ [(key, value)])%list.

Fixpoint insertByKey (kv : string * string) (sorted : Values) : Values :=
  match sorted with
  | [] => [kv]
  | kv' :: rest =>
      if String.ltb (fst kv) (fst kv') then kv :: sorted
      else kv' :: insertByKey kv rest
  end.

Definition sortByKey (v : Values) : Values :=
  fold_left (fun acc kv => insertByKey kv acc) v [].

(** [Values.Encode]: [key=value] pairs, escaped, sorted by key, joined
    with [&]. *)
Definition Encode (v : Values) : string :=
  GoStrings.Join
    (map (fun kv => QueryEscape (fst kv) +:+ "=" +:+ QueryEscape (snd kv))
         (sortByKey v))
    "&".

(** [r.URL.Query().Get(key)]: the first value of the key, or the empty
    string. *)
Fixpoint Get (q : Values) (key : string) : string :=
  match q with
  | [] => ""
  | (k, v) :: rest => if String.eqb k key then v else Get rest key
  end.

End GoUrl.

Module GoMath.

(** [float64(n)] for an [int]: the nearest binary64, ties to even. *)
Definition float64 (n : Z) : float :=
  SF2Prim (binary_normalize prec emax n 0 false).

(** [math.Pow(2, float64(n))] for an [int] [n]: the power of two itself
    where binary64 has it (down to the smallest subnormal), [+Inf] above
    and 0 below. *)
Definition Pow2 (n : Z) : float :=
  if n >? 1023 then infinity
  else if n <? -1074 then zero
  else Z.ldexp one n.

End GoMath.

Module GoFmt.

(** The exact value of a finite binary64 is [m * 2^e]; [%f] prints it
    with six decimals, the last one rounded to nearest, ties to even. *)
Definition scaledMicro (m : positive) (e : Z) : Z :=
  let n := Z.pos m * 10 ^ 6 in
  if 0 <=? e then n * 2 ^ e
  else
    let d := 2 ^ (- e) in
    let q := n / d in
    let r := n mod d in
    if (2 * r >? d) || ((2 * r =? d) && Z.odd q) then q + 1 else q.

Fixpoint zeros (n : nat) : string :=
  match n with
  | O => ""
  | S k => "0" +:+ zeros k
  end.

Definition zeroPad (width : nat) (s : string) : string :=
  zeros (width - String.length s) +:+ s.

Definition fixed6 (micro : Z) : string :=
  GoStrconv.Itoa (micro / 10 ^ 6) +:+ "."
  +:+ zeroPad 6 (GoStrconv.Itoa (micro mod 10 ^ 6)).

(** [fmt.Sprintf("%f", v)]. *)
Definition Sprintf_f (v : float) : string :=
  match Prim2SF v with
  | S754_nan => "NaN"
  | S754_infinity false => "+Inf"
  | S754_infinity true => "-Inf"
  | S754_zero s => (if s then "-" else "") +:+ fixed6 0
  | S754_finite s m e => (if s then "-" else "") +:+ fixed6 (scaledMicro m e)
  end.

End GoFmt.

(** ** Tile coordinates to a bounding box in EPSG:3857 metres *)

Definition TILE_SIZE : Z := 256.

(** The constant expression [(2 * math.Pi * 6378137) / TILE_SIZE], which Go
    evaluates exactly and then rounds once to binary64:
    156543.03392804097. *)
Definition metersPerPixelAtZoom0 : float := 0x1.31bf8457c1093p+17%float.

(** The literal [20037508.3427892] as binary64. *)
Definition originShift : float := 0x1.31bf8457c1087p+24%float.

(** [resolution] of [tileToBoundingBox]: metres per pixel at a zoom. *)
Definition resolution (zoom : Z) : float :=
  (metersPerPixelAtZoom0 / GoMath.Pow2 zoom)%float.

(** [resolution*TILE_SIZE], the edge of a tile in metres, as the function
    adds it to [minX]. *)
Definition tileSpan (zoom : Z) : float :=
  (resolution zoom * GoMath.float64 TILE_SIZE)%float.

Record BoundingBox := {
  minX : float;
  minY : float;
  maxX : float;
  maxY : float
}.

(** [fmt.Sprintf("%f,%f,%f,%f", minX, minY, maxX, maxY)]. *)
Definition formatBBox (b : BoundingBox) : string :=
  GoFmt.Sprintf_f (minX b) +:+ "," +:+ GoFmt.Sprintf_f (minY b) +:+ ","
  +:+ GoFmt.Sprintf_f (maxX b) +:+ "," +:+ GoFmt.Sprintf_f (maxY b).

(** The width of a box as the difference of its corners, in binary64. *)
Definition boxWidth (b : BoundingBox) : float := (maxX b - minX b)%float.

(** The exact rational value of a finite binary64 (0 for the others). *)
Definition exactValue (v : float) : Q :=
  match Prim2SF v with
  | S754_finite s m e =>
      let n := if s then Z.neg m else Z.pos m in
      if 0 <=? e then inject_Z (n * 2 ^ e)
      else Qmake n (Z.to_pos (2 ^ (- e)))
  | _ => 0%Q
  end.


(** ** The world a request runs in *)

Record WMSInfo := {
  URL : string;
  LayerName : string
}.

Record CacheEntry := {
  Timestamps : list string;
  Expiry : Z
}.

(** A decoded raster: what [image.Decode] made of a response body, or the
    RGBA buffer the handler draws a base ([draw.Src]) and an overlay
    ([draw.Over]) into. *)
Inductive Image :=
| Decoded (body : string)
| Composite (base overlay : Image).

(** What [client.Get] comes back with. *)
Inductive Reply :=
| TransportError (msg : string)
| HTTPResponse (StatusCode : Z) (body : string).

(** Everything outside the process: the upstream servers (a reply and the
    time it takes, for a GET of a URL sent at an instant), and the library
    decoders whose input is upstream data. Instants are nanoseconds. *)
Record Upstream := {
  roundTrip : Z -> string -> Reply;
  latency : Z -> string -> Z;
  xmlDimension : string -> Result string;
  imageDecode : string -> Result Image;
  formatUTC : Z -> string
}.

(** The process state and its visible effects: the clock [time.Now] reads,
    the package-level [cache], the lines given to [log], and the URLs
    handed to the network, oldest first. *)
Record World := {
  clock : Z;
  cache : gmap string CacheEntry;
  logs : list string;
  requests : list string
}.

Definition M (A : Type) : Type := World -> A * World.

Definition ret {A} (a : A) : M A := fun w => (a, w).

Definition bind {A B} (m : M A) (k : A -> M B) : M B :=
  fun w => let (a, w') := m w in k a w'.

Notation "x <- m ;; k" := (bind m (fun x => k))
  (at level 100, m at next level, right associativity).
Notation "m ;; k" := (bind m (fun _ => k))
  (at level 100, right associativity).

Definition timeNow : M Z := fun w => (clock w, w).

Definition logPrint (line : string) : M unit := fun w =>
  (tt, {| clock := clock w; cache := cache w;
          logs := (logs w ++ [line])%list; requests := requests w |}).

Definition cacheLookup (area : string) : M (option CacheEntry) := fun w =>
  (cache w !! area, w).

Definition cacheStore (area : string) (e : CacheEntry) : M unit := fun w =>
  (tt, {| clock := clock w; cache := <[area := e]> (cache w);
          logs := logs w; requests := requests w |}).

Definition quote (s : string) : string :=
  String (ascii_of_N 34) (s +:+ String (ascii_of_N 34) EmptyString).

Definition hasHTTPScheme (url : string) : bool :=
  String.prefix "http://" url || String.prefix "https://" url.

(** [client.Get(url)]: a URL without an http(s) scheme (the program only
    builds lower-case ones, or none) fails in the client before anything is
    sent; any other goes to the network. *)
Definition clientGet (U : Upstream) (url : string) : M Reply := fun w =>
  if hasHTTPScheme url then
    (roundTrip U (clock w) url,
     {| clock := clock w + latency U (clock w) url; cache := cache w;
        logs := logs w; requests := (requests w ++ [url])%list |})
  else
    (TransportError ("Get " +:+ quote url +:+ ": unsupported protocol scheme "
                     +:+ quote ""), w).

(** ** Requests and responses *)

Record Request := {
  Path : string;
  Query : GoUrl.Values
}.

Inductive Payload :=
| Text (s : string)
| RawBody (s : string)
| PNG (img : Image)
| JSON (v : list string).

Record Response := {
  Status : Z;
  ContentType : string;
  Body : Payload
}.

(** A handler either writes a response or panics; [net/http] recovers the
    panic, reports it and drops the connection without a response. *)
Inductive Outcome :=
| Responded (r : Response)
| Panicked (msg : string).

Definition StatusOK : Z := 200.
Definition StatusBadRequest : Z := 400.
Definition StatusInternalServerError : Z := 500.

(** [http.Error(w, msg, code)]. *)
Definition httpError (msg : string) (code : Z) : Outcome :=
  Responded {| Status := code; ContentType := "text/plain; charset=utf-8";
               Body := Text (msg +:+ String (ascii_of_N 10) EmptyString) |}.

(** [png.Encode(w, img)] after [Content-Type: image/png]. *)
Definition writePNG (img : Image) : Outcome :=
  Responded {| Status := StatusOK; ContentType := "image/png"; Body := PNG img |}.

(** [parts[i]], with Go's bounds check. *)
Definition index (parts : list string) (i : nat) : Result string :=
  match nth_error parts i with
  | Some p => Ok p
  | None => Err ("runtime error: index out of range ["
                 +:+ GoStrconv.Itoa (Z.of_nat i) +:+ "] with length "
                 +:+ GoStrconv.Itoa (Z.of_nat (List.length parts)))
  end.

(** The layer table shared by the [Overlay] and [Cached] revisions. *)
Definition radarLayers : gmap string WMSInfo :=
  list_to_map
    [("conus", {| URL := "https://opengeo.ncep.noaa.gov/geoserver/conus/conus_bref_qcd/ows";
                  LayerName := "conus_bref_qcd" |});
     ("alaska", {| URL := "https://opengeo.ncep.noaa.gov/geoserver/alaska/alaska_bref_qcd/ows";
                   LayerName := "alaska_bref_qcd" |});
     ("hawaii", {| URL := "https://opengeo.ncep.noaa.gov/geoserver/hawaii/hawaii_bref_qcd/ows";
                   LayerName := "hawaii_bref_qcd" |});
     ("carib", {| URL := "https://opengeo.ncep.noaa.gov/geoserver/carib/carib_bref_qcd/ows";
                  LayerName := "carib_bref_qcd" |});
     ("guam", {| URL := "https://opengeo.ncep.noaa.gov/geoserver/guam/guam_bref_qcd/ows";
                 LayerName := "guam_bref_qcd" |})].

Definition hazardsLayer : WMSInfo :=
  {| URL := "https://opengeo.ncep.noaa.gov/geoserver/wwa/hazards/ows";
     LayerName := "hazards" |}.

(** The zero value [radarLayers[area]] yields for an unknown key. *)
Definition zeroWMSInfo : WMSInfo := {| URL := ""; LayerName := "" |}.

(** The [GetMap] parameters every revision sends. *)
Definition getMapParams (layer : string) : GoUrl.Values :=
  let params : GoUrl.Values := [] in
  let params := GoUrl.Add params "SERVICE" "WMS" in
  let params := GoUrl.Add params "VERSION" "1.3.0" in
  let params := GoUrl.Add params "REQUEST" "GetMap" in
  let params := GoUrl.Add params "FORMAT" "image/png" in
  let params := GoUrl.Add params "TRANSPARENT" "true" in
  let params := GoUrl.Add params "LAYERS" layer in
  let params := GoUrl.Add params "WIDTH" (GoStrconv.Itoa TILE_SIZE) in
  let params := GoUrl.Add params "HEIGHT" (GoStrconv.Itoa TILE_SIZE) in
  GoUrl.Add params "CRS" "EPSG:3857".

(** ** First revision: one layer, the upstream tile streamed through *)

Module Simple.

Definition WMS_SERVER_URL : string :=
  "https://opengeo.ncep.noaa.gov/geoserver/conus/conus_bref_qcd/ows".

(** [tileToBoundingBox]: the four corners as floats. *)
Definition tileToBoundingBox (x y zoom : Z) : BoundingBox :=
  let resolution := resolution zoom in
  let tile := GoMath.float64 TILE_SIZE in
  let minX := (- originShift + GoMath.float64 x * resolution * tile)%float in
  let maxY := (originShift - GoMath.float64 y * resolution * tile)%float in
  let maxX := (minX + resolution * tile)%float in
  let minY := (maxY - resolution * tile)%float in
  {| minX := minX; minY := minY; maxX := maxX; maxY := maxY |}.

Definition wmsURL (x y zoom : Z) : string :=
  let bbox := formatBBox (tileToBoundingBox x y zoom) in
  let params := getMapParams "conus_bref_qcd" in
  let params := GoUrl.Add params "STYLES" "" in
  let params := GoUrl.Add params "BBOX" bbox in
  WMS_SERVER_URL +:+ "?" +:+ GoUrl.Encode params.

Definition tileHandler (U : Upstream) (r : Request) : M Outcome :=
  let parts := GoStrings.Split (Path r) "/" in
  if negb (List.length parts =? 5)%nat then
    ret (httpError "Invalid tile URL format. Expected /tiles/{z}/{x}/{y}.png"
                   StatusBadRequest)
  else
    let '(zoom, errZ) := GoStrconv.Atoi (nth 2 parts "") in
    let '(x, errX) := GoStrconv.Atoi (nth 3 parts "") in
    let yStr := GoStrings.TrimSuffix (nth 4 parts "") ".png" in
    let '(y, errY) := GoStrconv.Atoi yStr in
    if negb (bool_decide (errZ = None) && bool_decide (errX = None)
             && bool_decide (errY = None)) then
      ret (httpError "Invalid zoom, x, or y value." StatusBadRequest)
    else if zoom >? 22 then
      ret (httpError "Invalid zoom level." StatusBadRequest)
    else
      let url := wmsURL x y zoom in
      logPrint ("Proxying request for tile z=" +:+ GoStrconv.Itoa zoom
                +:+ ", x=" +:+ GoStrconv.Itoa x +:+ ", y=" +:+ GoStrconv.Itoa y
                +:+ " to WMS URL: " +:+ url) ;;
      resp <- clientGet U url ;;
      match resp with
      | TransportError err =>
          logPrint ("Error fetching from WMS: " +:+ err) ;;
          ret (httpError "Failed to fetch tile from WMS server"
                         StatusInternalServerError)
      | HTTPResponse code body =>
          if negb (code =? StatusOK) then
            logPrint ("WMS server error: " +:+ body) ;;
            ret (httpError ("WMS server returned status " +:+ GoStrconv.Itoa code)
                           code)
          else
            ret (Responded {| Status := StatusOK; ContentType := "image/png";
                              Body := RawBody body |})
      end.

End Simple.

(** ** Second revision: named areas and the hazards overlay *)

Module Overlay.

Definition tileToBoundingBox := Simple.tileToBoundingBox.

(** [wmsURL] of [fetchWmsTile]; [TIME] is sent only when given. *)
Definition wmsURL (wms : WMSInfo) (bbox time : string) : string :=
  let params := getMapParams (LayerName wms) in
  let params := GoUrl.Add params "STYLES" "" in
  let params := GoUrl.Add params "BBOX" bbox in
  let params := if negb (String.eqb time "") then GoUrl.Add params "TIME" time
                else params in
  URL wms +:+ "?" +:+ GoUrl.Encode params.

Definition fetchWmsTile (U : Upstream) (wms : WMSInfo) (bbox time : string)
  : M (Result Image) :=
  resp <- clientGet U (wmsURL wms bbox time) ;;
  match resp with
  | TransportError err =>
      ret (Err ("failed to fetch tile from " +:+ URL wms +:+ ": " +:+ err))
  | HTTPResponse code body =>
      if negb (code =? StatusOK) then
        ret (Err ("WMS server " +:+ URL wms +:+ " returned status "
                  +:+ GoStrconv.Itoa code +:+ ": " +:+ body))
      else
        match imageDecode U body with
        | Err err =>
            ret (Err ("failed to decode image from " +:+ URL wms +:+ ": " +:+ err))
        | Ok img => ret (Ok img)
        end
  end.

Definition tileHandler (U : Upstream) (r : Request) : M Outcome :=
  let parts := GoStrings.Split (Path r) "/" in
  if negb (List.length parts =? 5)%nat then
    ret (httpError "Invalid tile URL format. Expected /tiles/{z}/{x}/{y}.png"
                   StatusBadRequest)
  else
    let zoom := fst (GoStrconv.Atoi (nth 2 parts "")) in
    let x := fst (GoStrconv.Atoi (nth 3 parts "")) in
    let yStr := GoStrings.TrimSuffix (nth 4 parts "") ".png" in
    let y := fst (GoStrconv.Atoi yStr) in
    logPrint ("Proxying request for tile z=" +:+ GoStrconv.Itoa zoom
              +:+ ", x=" +:+ GoStrconv.Itoa x +:+ ", y=" +:+ GoStrconv.Itoa y) ;;
    if zoom >? 22 then
      ret (httpError "Invalid zoom level." StatusBadRequest)
    else
      let query := Query r in
      let area := GoStrings.ToLower (GoUrl.Get query "area") in
      let area := if String.eqb area "" then "conus" else area in
      let showAlers := fst (GoStrconv.ParseBool (GoUrl.Get query "alerts")) in
      match radarLayers !! area with
      | None =>
          ret (httpError
                 "Invalid area specified. Use one of: conus, alaska, hawaii, carib, guam."
                 StatusBadRequest)
      | Some radarInfo =>
          let bbox := formatBBox (tileToBoundingBox x y zoom) in
          now <- timeNow ;;
          let currentTime := formatUTC U now in
          radar <- fetchWmsTile U radarInfo bbox currentTime ;;
          match radar with
          | Err err =>
              logPrint err ;;
              ret (httpError err StatusInternalServerError)
          | Ok radarImg =>
              if showAlers then
                alerts <- fetchWmsTile U hazardsLayer bbox currentTime ;;
                match alerts with
                | Err err =>
                    logPrint ("Could not fetch alerts layer: " +:+ err) ;;
                    ret (writePNG radarImg)
                | Ok alertsImg => ret (writePNG (Composite radarImg alertsImg))
                end
              else ret (writePNG radarImg)
          end
      end.

End Overlay.

(** ** Third revision: the timestamp cache, [/frames], and [time=] *)

Module Cached.

(** [5 * time.Minute], in nanoseconds. *)
Definition CACHE_DURATION : Z := 5 * 60 * 1000000000.

(** [timestamps[len(timestamps)-frameCount:]] with [frameCount] the smaller
    of 12 and the length. *)
Definition recentTimestamps (timestamps : list string) : list string :=
  let frameCount := 12%nat in
  let frameCount :=
    if (List.length timestamps <? frameCount)%nat then List.length timestamps
    else frameCount in
  skipn (List.length timestamps - frameCount) timestamps.

(** The part of [getTimestamps] after the cache check: ask the area's
    server for its capabilities, keep the most recent frames, store them. *)
Definition refreshTimestamps (U : Upstream) (area : string)
  : M (Result (list string)) :=
  logPrint ("Fetching new timestamps for '" +:+ area +:+ "'") ;;
  match radarLayers !! area with
  | None => ret (Err ("invalid area: " +:+ area))
  | Some wmsInfo =>
      let capsURL :=
        URL wmsInfo +:+ "?service=wms&version=1.3.0&request=GetCapabilities" in
      resp <- clientGet U capsURL ;;
      match resp with
      | TransportError err => ret (Err err)
      | HTTPResponse _ body =>
          match xmlDimension U body with
          | Err err => ret (Err err)
          | Ok text =>
              let timestamps := GoStrings.Split text "," in
              let recentTimestamps := recentTimestamps timestamps in
              stored <- timeNow ;;
              cacheStore area {| Timestamps := recentTimestamps;
                                 Expiry := stored + CACHE_DURATION |} ;;
              ret (Ok recentTimestamps)
          end
      end
  end.

(** [getTimestamps] fetches and caches the available animation frames for
    a given area. *)
Definition getTimestamps (U : Upstream) (area : string)
  : M (Result (list string)) :=
  entry <- cacheLookup area ;;
  now <- timeNow ;;
  match entry with
  | Some e =>
      if now <? Expiry e then
        logPrint ("Returning cached timestamps for '" +:+ area +:+ "'") ;;
        ret (Ok (Timestamps e))
      else refreshTimestamps U area
  | None => refreshTimestamps U area
  end.

(** [tileToBoundingBox] of this revision returns the formatted string. *)
Definition tileToBoundingBox (x y zoom : Z) : string :=
  formatBBox (Simple.tileToBoundingBox x y zoom).

(** [wmsURL] of [fetchWmsTile]; [TIME] is sent only when given. *)
Definition wmsURL (wms : WMSInfo) (bbox time : string) : string :=
  let params := getMapParams (LayerName wms) in
  let params := GoUrl.Add params "BBOX" bbox in
  let params := if negb (String.eqb time "") then GoUrl.Add params "TIME" time
                else params in
  URL wms +:+ "?" +:+ GoUrl.Encode params.

Definition fetchWmsTile (U : Upstream) (wms : WMSInfo) (bbox time : string)
  : M (Result Image) :=
  resp <- clientGet U (wmsURL wms bbox time) ;;
  match resp with
  | TransportError err => ret (Err err)
  | HTTPResponse code body =>
      if negb (code =? StatusOK) then
        ret (Err ("WMS server returned status " +:+ GoStrconv.Itoa code))
      else ret (imageDecode U body)
  end.

Definition framesHandler (U : Upstream) (r : Request) : M Outcome :=
  let area := GoUrl.Get (Query r) "area" in
  let area := if String.eqb area "" then "conus" else area in
  res <- getTimestamps U area ;;
  match res with
  | Err err => ret (httpError err StatusInternalServerError)
  | Ok timestamps =>
      ret (Responded {| Status := StatusOK; ContentType := "application/json";
                        Body := JSON timestamps |})
  end.

(** The handler from the point where [timestamp] is known. *)
Definition serveTile (U : Upstream) (area : string) (showAlerts : bool)
  (x y zoom : Z) (timestamp : string) : M Outcome :=
  let radarInfo := default zeroWMSInfo (radarLayers !! area) in
  let bbox := tileToBoundingBox x y zoom in
  radar <- fetchWmsTile U radarInfo bbox timestamp ;;
  match radar with
  | Err err => ret (httpError err StatusInternalServerError)
  | Ok radarImg =>
      if showAlerts then
        alerts <- fetchWmsTile U hazardsLayer bbox timestamp ;;
        match alerts with
        | Ok alertsImg => ret (writePNG (Composite radarImg alertsImg))
        | Err _ => ret (writePNG radarImg)
        end
      else ret (writePNG radarImg)
  end.

Definition tileHandler (U : Upstream) (r : Request) : M Outcome :=
  let parts := GoStrings.Split (Path r) "/" in
  match index parts 2, index parts 3, index parts 4 with
  | Ok zoomStr, Ok xStr, Ok yStr =>
      let zoom := fst (GoStrconv.Atoi zoomStr) in
      let x := fst (GoStrconv.Atoi xStr) in
      let y := fst (GoStrconv.Atoi (GoStrings.TrimSuffix yStr ".png")) in
      let query := Query r in
      let area := GoUrl.Get query "area" in
      let area := if String.eqb area "" then "conus" else area in
      let showAlerts := fst (GoStrconv.ParseBool (GoUrl.Get query "alerts")) in
      let timestamp := GoUrl.Get query "time" in
      if String.eqb timestamp "" then
        res <- getTimestamps U area ;;
        match res with
        | Err _ =>
            ret (httpError "Could not get latest timestamp"
                           StatusInternalServerError)
        | Ok timestamps =>
            if (List.length timestamps =? 0)%nat then
              ret (httpError "Could not get latest timestamp"
                             StatusInternalServerError)
            else
              serveTile U area showAlerts x y zoom (List.last timestamps "")
        end
      else serveTile U area showAlerts x y zoom timestamp
  | Err panic, _, _ | _, Err panic, _ | _, _, Err panic => ret (Panicked panic)
  end.

End Cached.

(** The process as it starts: an empty cache, nothing logged or sent. *)
Definition startWorld (now : Z) : World :=
  {| clock := now; cache := ∅; logs := []; requests := [] |}.

(** ** Sample upstreams and requests *)

Definition sampleFrames : string :=
  "2025-07-01T00:00:00.000Z,2025-07-01T00:05:00.000Z,2025-07-01T00:10:00.000Z".

(** Every server answers 200 within a millisecond; capabilities list three
    frames and every tile body decodes. *)
Definition healthy : Upstream :=
  {| roundTrip := fun _ url => HTTPResponse 200 ("body of " +:+ url);
     latency := fun _ _ => 1000000;
     xmlDimension := fun _ => Ok sampleFrames;
     imageDecode := fun body => Ok (Decoded body);
     formatUTC := fun _ => "2025-07-01T00:10:00Z" |}.

(** As [healthy], but the hazards server answers 503. *)
Definition hazardsDown : Upstream :=
  {| roundTrip := fun _ url =>
       if String.prefix (URL hazardsLayer) url
       then HTTPResponse 503 "Service Unavailable"
       else HTTPResponse 200 ("body of " +:+ url);
     latency := fun _ _ => 1000000;
     xmlDimension := fun _ => Ok sampleFrames;
     imageDecode := fun body => Ok (Decoded body);
     formatUTC := fun _ => "2025-07-01T00:10:00Z" |}.

Definition tileRequest (path : string) (query : GoUrl.Values) : Request :=
  {| Path := path; Query := query |}.

(** What a handler answered with, if it answered. *)
Definition statusOf (o : Outcome) : option Z :=
  match o with
  | Responded r => Some (Status r)
  | Panicked _ => None
  end.

(** The number of requests handed to the network so far. *)
Definition sent (w : World) : nat := List.length (requests w).

(** [w] after one more [log] line and nothing else. *)
Definition logged (w : World) (line : string) : World :=
  {| clock := clock w; cache := cache w;
     logs := (logs w ++ [line])%list; requests := requests w |}.

Definition capabilitiesURL (info : WMSInfo) : string :=
  URL info +:+ "?service=wms&version=1.3.0&request=GetCapabilities".

(** ** Vocabulary of the properties *)

(** No entry for the area, or one whose expiry the clock has reached. *)
Definition stale (w : World) (area : string) : Prop :=
  match cache w !! area with
  | Some e => Expiry e <= clock w
  | None => True
  end.

(** The world after a refresh that succeeded. *)
Definition refreshed (U : Upstream) (area : string) (info : WMSInfo)
  (text : string) (w : World) : World :=
  let stored := clock w + latency U (clock w) (capabilitiesURL info) in
  {| clock := stored;
     cache := <[area := {| Timestamps := Cached.recentTimestamps (GoStrings.Split text ",");
                           Expiry := stored + 300000000000 |}]> (cache w);
     logs := (logs w ++ ["Fetching new timestamps for '" +:+ area +:+ "'"])%list;
     requests := (requests w ++ [capabilitiesURL info])%list |}.

(** [w] after a request for [url] went out and came back. *)
Definition afterGet (U : Upstream) (url : string) (w : World) : World :=
  {| clock := clock w + latency U (clock w) url; cache := cache w;
     logs := logs w; requests := (requests w ++ [url])%list |}.

(** What [fetchWmsTile] makes of a reply: a transport error, a status
    other than 200 and an undecodable body are its three failures. *)
Definition tileOfReply (U : Upstream) (reply : Reply) : Result Image :=
  match reply with
  | TransportError err => Err err
  | HTTPResponse code body =>
      if code =? 200 then imageDecode U body
      else Err ("WMS server returned status " +:+ GoStrconv.Itoa code)
  end.

(** Every cached sequence belongs to a configured area and has between 1
    and 12 timestamps. *)
Definition cacheBounded (w : World) : Prop :=
  forall area e, cache w !! area = Some e ->
                 is_Some (radarLayers !! area)
                 /\ (1 <= List.length (Timestamps e) <= 12)%nat.

(** [w] after [dt] nanoseconds in which nothing happened. *)
Definition elapse (w : World) (dt : Z) : World :=
  {| clock := clock w + dt; cache := cache w; logs := logs w;
     requests := requests w |}.

(** The worlds the server can be in: it starts with an empty cache, time
    passes, and requests to [/tiles/] and [/frames] are handled, whatever
    the upstream does. *)
Inductive reachable : World -> Prop :=
| reachable_start (now : Z) : reachable (startWorld now)
| reachable_wait (w : World) (dt : Z) :
    reachable w -> 0 <= dt -> reachable (elapse w dt)
| reachable_tile (U : Upstream) (r : Request) (w : World) :
    reachable w -> reachable (snd (Cached.tileHandler U r w))
| reachable_frames (U : Upstream) (r : Request) (w : World) :
    reachable w -> reachable (snd (Cached.framesHandler U r w)).

(** The area a request names, [conus] when it names none. *)
Definition requestArea (r : Request) : string :=
  let area := GoUrl.Get (Query r) "area" in
  if String.eqb area "" then "conus" else area.

(** Whether a request asks for the alerts overlay. *)
Definition requestAlerts (r : Request) : bool :=
  fst (GoStrconv.ParseBool (GoUrl.Get (Query r) "alerts")).

(** The path segments of a request. *)
Definition segments (r : Request) : list string :=
  GoStrings.Split (Path r) "/".

(** Whether the edge of a tile at [zoom + 1] is half the edge at [zoom],
    as binary64 values. *)
Definition spanHalves (zoom : Z) : bool :=
  PrimFloat.Leibniz.eqb (tileSpan (zoom + 1)) (tileSpan zoom / 2)%float
  && PrimFloat.Leibniz.eqb (resolution (zoom + 1)) (resolution zoom / 2)%float.

(** [|v - target| <= tol] on exact values. *)
Definition within (tol target : Q) (v : float) : Prop :=
  (Qabs (exactValue v - target) <= tol)%Q.

(** The world after a first [/tiles/] request to a healthy upstream: conus
    is cached until 300.001 s, the clock reads 2 ms. *)
Definition warmWorld : World :=
  snd (Cached.tileHandler healthy (tileRequest "/tiles/8/79/98.png" []) (startWorld 0)).

Definition sampleTime : string := "2025-07-01T00:10:00.000Z".

(** The numbers the handlers read from segments 2, 3 and 4 of the path,
    the last one without its [.png], and whether [Atoi] accepted all
    three. *)
Definition pathZoom (r : Request) : Z :=
  fst (GoStrconv.Atoi (nth 2 (segments r) "")).

Definition pathX (r : Request) : Z :=
  fst (GoStrconv.Atoi (nth 3 (segments r) "")).

Definition pathY (r : Request) : Z :=
  fst (GoStrconv.Atoi (GoStrings.TrimSuffix (nth 4 (segments r) "") ".png")).

Definition pathIsNumeric (r : Request) : bool :=
  bool_decide (snd (GoStrconv.Atoi (nth 2 (segments r) "")) = None)
  && bool_decide (snd (GoStrconv.Atoi (nth 3 (segments r) "")) = None)
  && bool_decide (snd (GoStrconv.Atoi
                         (GoStrings.TrimSuffix (nth 4 (segments r) "") ".png")) = None).


(** [P] on every integer of the block [lo, lo + 2^k), by halving; [width]
    is [2^k], on machine integers. *)
Fixpoint allInBlock (k : nat) (lo width : int) (P : int -> bool) : bool :=
  match k with
  | O => P lo
  | S k' =>
      let half := PrimInt63.lsr width 1 in
      allInBlock k' lo half P && allInBlock k' (PrimInt63.add lo half) half P
  end.

(** Less than a micrometre: 2^-20 m. *)
Definition boxSlack : float := 0x1p-20%float.

(** The box is not degenerate and lies in the square of the projection,
    give or take [boxSlack] on the two sides that are reached by adding the
    span. *)
Definition boxInOrder (b : BoundingBox) : bool :=
  (minX b <? maxX b)%float && (minY b <? maxY b)%float
  && (- originShift <=? minX b)%float && (maxY b <=? originShift)%float
  && (maxX b <=? originShift + boxSlack)%float
  && (- originShift - boxSlack <=? minY b)%float.

(** The arithmetic of [tileToBoundingBox] on a resolution and on column and
    row already converted to [float64]. *)
Definition boxAt (res tile fx fy : float) : BoundingBox :=
  let minX := (- originShift + fx * res * tile)%float in
  let maxY := (originShift - fy * res * tile)%float in
  let maxX := (minX + res * tile)%float in
  let minY := (maxY - res * tile)%float in
  {| minX := minX; minY := minY; maxX := maxX; maxY := maxY |}.

(** Every tile on the diagonal of zoom [k] is in order. *)
Definition diagonalInOrder (k : nat) : bool :=
  let zoom := Z.of_nat k in
  let res := resolution zoom in
  let tile := GoMath.float64 TILE_SIZE in
  allInBlock k 0%uint63 (Uint63.of_Z (2 ^ zoom))
    (fun j => let f := PrimFloat.of_uint63 j in boxInOrder (boxAt res tile f f)).

(** The number a decimal numeral stands for, most significant digit
    first, after the digits already read as [acc]. *)
Fixpoint uintValue (d : Decimal.uint) (acc : Z) : Z :=
  match d with
  | Decimal.Nil => acc
  | Decimal.D0 l => uintValue l (acc * 10 + 0)
  | Decimal.D1 l => uintValue l (acc * 10 + 1)
  | Decimal.D2 l => uintValue l (acc * 10 + 2)
  | Decimal.D3 l => uintValue l (acc * 10 + 3)
  | Decimal.D4 l => uintValue l (acc * 10 + 4)
  | Decimal.D5 l => uintValue l (acc * 10 + 5)
  | Decimal.D6 l => uintValue l (acc * 10 + 6)
  | Decimal.D7 l => uintValue l (acc * 10 + 7)
  | Decimal.D8 l => uintValue l (acc * 10 + 8)
  | Decimal.D9 l => uintValue l (acc * 10 + 9)
  end.

(** [P] on every byte of a string. *)
Fixpoint allBytes (P : ascii -> bool) (s : string) : bool :=
  match s with
  | EmptyString => true
  | String c rest => P c && allBytes P rest
  end.

(** The bytes [Itoa] writes: digits and the minus sign. *)
Definition numeric (c : ascii) : bool :=
  GoStrconv.isDigit c || Ascii.eqb c "-".

(** The path of a tile as a client writes it. *)
Definition tilePath (zoom x y : Z) : string :=
  "/tiles/" +:+ GoStrconv.Itoa zoom +:+ "/" +:+ GoStrconv.Itoa x +:+ "/"
  +:+ GoStrconv.Itoa y +:+ ".png".

(** Two upstreams that answer alike except, possibly, for the status codes
    of their responses. *)
Definition sameButStatus (U U' : Upstream) : Prop :=
  (forall t url,
      match roundTrip U t url, roundTrip U' t url with
      | TransportError e, TransportError e' => e = e'
      | HTTPResponse _ body, HTTPResponse _ body' => body = body'
      | _, _ => False
      end)
  /\ (forall t url, latency U t url = latency U' t url)
  /\ (forall body, xmlDimension U body = xmlDimension U' body).

(** As [healthy], but every response carries status 503. *)
Definition allUnavailable : Upstream :=
  {| roundTrip := fun _ url => HTTPResponse 503 ("body of " +:+ url);
     latency := fun _ _ => 1000000;
     xmlDimension := fun _ => Ok sampleFrames;
     imageDecode := fun body => Ok (Decoded body);
     formatUTC := fun _ => "2025-07-01T00:10:00Z" |}.

(** Sample requests and a first call, for the examples. *)
Definition sampleTile : Request := tileRequest "/tiles/8/79/98.png" [].

Definition sampleTileAt : Request :=
  tileRequest "/tiles/8/79/98.png" [("alerts", "true"); ("time", sampleTime)].

Definition marsFrames : Request := tileRequest "/frames" [("area", "mars")].

Definition conusFrames : Request := tileRequest "/frames" [].

Definition firstCall : Result (list string) * World :=
  Cached.getTimestamps healthy "conus" (startWorld 0).

Definition conusInfo : WMSInfo :=
  {| URL := "https://opengeo.ncep.noaa.gov/geoserver/conus/conus_bref_qcd/ows";
     LayerName := "conus_bref_qcd" |}.

Definition threeFrames : list string :=
  ["2025-07-01T00:00:00.000Z"; "2025-07-01T00:05:00.000Z";
   "2025-07-01T00:10:00.000Z"].


(** * Properties *)

(** ** Library facts *)

Lemma Split_nonempty (s : string) (sep : ascii) :
  (1 <= List.length (GoStrings.Split s sep))%nat.
Proof.
  induction s as [|c s IH]; simpl; [lia|].
  destruct (Ascii.eqb c sep); simpl; [lia|].
  destruct (GoStrings.Split s sep); simpl in *; lia.
Qed.

Lemma recentTimestamps_skipn (all : list string) :
  Cached.recentTimestamps all
  = skipn (List.length all - Nat.min 12 (List.length all)) all.
Proof.
  unfold Cached.recentTimestamps.
  destruct (Nat.ltb_spec (List.length all) 12) as [Hlt|Hge].
  - rewrite Nat.min_r by lia. reflexivity.
  - rewrite Nat.min_l by lia. reflexivity.
Qed.

Lemma recentTimestamps_length (all : list string) :
  List.length (Cached.recentTimestamps all) = Nat.min 12 (List.length all).
Proof. rewrite recentTimestamps_skipn, length_skipn. lia. Qed.

Lemma recentTimestamps_suffix (all : list string) :
  exists older, all = (older ++ Cached.recentTimestamps all)%list.
Proof.
  rewrite recentTimestamps_skipn.
  exists (firstn (List.length all - Nat.min 12 (List.length all)) all).
  symmetry. apply firstn_skipn.
Qed.

Lemma radarLayers_inv (area : string) (info : WMSInfo) :
  radarLayers !! area = Some info ->
  In area ["conus"; "alaska"; "hawaii"; "carib"; "guam"]
  /\ info = {| URL := "https://opengeo.ncep.noaa.gov/geoserver/" +:+ area
                      +:+ "/" +:+ area +:+ "_bref_qcd/ows";
               LayerName := area +:+ "_bref_qcd" |}.
Proof.
  intros H. apply elem_of_list_to_map_2 in H.
  repeat (apply elem_of_cons in H as [H|H];
          [inversion H; subst; split; [simpl; tauto | reflexivity]|]).
  inversion H.
Qed.

Lemma radarLayers_https (area : string) (info : WMSInfo) (rest : string) :
  radarLayers !! area = Some info ->
  hasHTTPScheme (URL info +:+ rest) = true.
Proof.
  intros H. apply radarLayers_inv in H as [_ ->]. reflexivity.
Qed.

Lemma radarLayers_scheme (area : string) (info : WMSInfo) :
  radarLayers !! area = Some info -> hasHTTPScheme (URL info) = true.
Proof.
  intros H. apply radarLayers_inv in H as [_ ->]. reflexivity.
Qed.

(** ** The timestamp cache *)

Lemma getTimestamps_fresh (U : Upstream) (area : string) (w : World) (e : CacheEntry) :
  cache w !! area = Some e ->
  clock w < Expiry e ->
  Cached.getTimestamps U area w
  = (Ok (Timestamps e),
     logged w ("Returning cached timestamps for '" +:+ area +:+ "'")).
Proof.
  intros Hfound Hbefore.
  unfold Cached.getTimestamps, bind, cacheLookup, timeNow.
  rewrite Hfound.
  destruct (Z.ltb_spec (clock w) (Expiry e)) as [_|Hexp]; [reflexivity | lia].
Qed.

Lemma getTimestamps_stale (U : Upstream) (area : string) (w : World) :
  stale w area ->
  Cached.getTimestamps U area w = Cached.refreshTimestamps U area w.
Proof.
  unfold stale, Cached.getTimestamps, bind, cacheLookup, timeNow.
  destruct (cache w !! area) as [e|]; [|reflexivity].
  intros Hexp.
  destruct (Z.ltb_spec (clock w) (Expiry e)) as [Hlt|_]; [lia | reflexivity].
Qed.

(** Either the cached entry is served or the refresh path runs. *)
Lemma getTimestamps_cases (U : Upstream) (area : string) (w : World) :
  (exists e, cache w !! area = Some e /\ clock w < Expiry e)
  \/ stale w area.
Proof.
  unfold stale. destruct (cache w !! area) as [e|]; [|right; exact I].
  destruct (Z.lt_ge_cases (clock w) (Expiry e)); [left; eauto | right; lia].
Qed.

Lemma refreshTimestamps_ok (U : Upstream) (area : string) (w : World)
  (info : WMSInfo) (code : Z) (body text : string) :
  radarLayers !! area = Some info ->
  roundTrip U (clock w) (capabilitiesURL info) = HTTPResponse code body ->
  xmlDimension U body = Ok text ->
  Cached.refreshTimestamps U area w
  = (Ok (Cached.recentTimestamps (GoStrings.Split text ",")),
     refreshed U area info text w).
Proof.
  intros Harea Hreply Hxml.
  unfold Cached.refreshTimestamps, bind, logPrint, clientGet, timeNow, cacheStore, ret.
  rewrite Harea. fold (capabilitiesURL info).
  unfold capabilitiesURL at 1. rewrite (radarLayers_https _ _ _ Harea).
  cbn [clock cache logs requests].
  rewrite Hreply, Hxml. reflexivity.
Qed.

(** A refresh that fails leaves the cache as it was. *)
Lemma refreshTimestamps_cases (U : Upstream) (area : string) (w : World) :
  (exists info code body text,
      radarLayers !! area = Some info
      /\ roundTrip U (clock w) (capabilitiesURL info) = HTTPResponse code body
      /\ xmlDimension U body = Ok text)
  \/ (exists err w',
         Cached.refreshTimestamps U area w = (Err err, w')
         /\ cache w' = cache w
         /\ (sent w' <= sent w + 1)%nat).
Proof.
  destruct (radarLayers !! area) as [info|] eqn:Harea.
  - destruct (roundTrip U (clock w) (capabilitiesURL info)) as [err|code body] eqn:Hreply.
    + right. unfold Cached.refreshTimestamps, bind, logPrint, clientGet.
      rewrite Harea. fold (capabilitiesURL info).
      unfold capabilitiesURL at 1. rewrite (radarLayers_https _ _ _ Harea).
      cbn [clock cache logs requests]. rewrite Hreply.
      eexists _, _. split; [reflexivity|]. unfold sent. cbn [cache requests].
      rewrite length_app. simpl. split; [reflexivity | lia].
    + destruct (xmlDimension U body) as [text|err] eqn:Hxml.
      * left. eauto 8.
      * right. unfold Cached.refreshTimestamps, bind, logPrint, clientGet.
        rewrite Harea. fold (capabilitiesURL info).
        unfold capabilitiesURL at 1. rewrite (radarLayers_https _ _ _ Harea).
        cbn [clock cache logs requests]. rewrite Hreply, Hxml.
        eexists _, _. split; [reflexivity|]. unfold sent. cbn [cache requests].
        rewrite length_app. simpl. split; [reflexivity | lia].
  - right. unfold Cached.refreshTimestamps, bind, logPrint. rewrite Harea.
    eexists _, _. split; [reflexivity|]. unfold sent. cbn [cache requests].
    split; [reflexivity | lia].
Qed.

(** C4. When [getTimestamps(area)] finds no cache entry or an expired one,
    and the capabilities fetch and the XML parse succeed, it takes exactly
    the last [min(12, len(all))] entries of the comma-split timestamp list,
    stores them in the cache under the area name with expiry the current
    time plus five minutes, and returns exactly that slice. *)
Theorem getTimestamps_refresh_takes_last_12 (U : Upstream) (area : string)
  (w : World) (info : WMSInfo) (code : Z) (body text : string) :
  stale w area ->
  radarLayers !! area = Some info ->
  roundTrip U (clock w) (capabilitiesURL info) = HTTPResponse code body ->
  xmlDimension U body = Ok text ->
  let all := GoStrings.Split text "," in
  let recent := skipn (List.length all - Nat.min 12 (List.length all)) all in
  let res := Cached.getTimestamps U area w in
  fst res = Ok recent
  /\ List.length recent = Nat.min 12 (List.length all)
  /\ (exists older, all = (older ++ recent)%list)
  /\ cache (snd res)
     = <[area := {| Timestamps := recent;
                    Expiry := clock (snd res) + 5 * 60 * 1000000000 |}]> (cache w)
  /\ clock (snd res) = clock w + latency U (clock w) (capabilitiesURL info)
  /\ requests (snd res) = (requests w ++ [capabilitiesURL info])%list.
Proof.
  intros Hstale Harea Hreply Hxml all recent res.
  assert (Hrecent : recent = Cached.recentTimestamps all)
    by (symmetry; apply recentTimestamps_skipn).
  subst res. rewrite (getTimestamps_stale _ _ _ Hstale).
  rewrite (refreshTimestamps_ok _ _ _ _ _ _ _ Harea Hreply Hxml).
  fold all. rewrite <- Hrecent. cbn [fst snd refreshed clock cache requests].
  fold all. rewrite <- Hrecent.
  repeat split.
  - rewrite Hrecent. apply recentTimestamps_length.
  - rewrite Hrecent. apply recentTimestamps_suffix.
Qed.

(** After a call that returned a sequence, the cache holds that sequence
    for the area, and the call sent at most one request. *)
Lemma getTimestamps_ok_cached (U : Upstream) (area : string) (w w' : World)
  (ts : list string) :
  Cached.getTimestamps U area w = (Ok ts, w') ->
  (exists e, cache w' !! area = Some e /\ Timestamps e = ts)
  /\ (sent w' <= sent w + 1)%nat.
Proof.
  intros Hcall.
  destruct (getTimestamps_cases U area w) as [(e & Hfound & Hbefore)|Hstale].
  - rewrite (getTimestamps_fresh _ _ _ _ Hfound Hbefore) in Hcall.
    injection Hcall as <- <-. split; [eauto|]. unfold sent, logged; simpl. lia.
  - rewrite (getTimestamps_stale _ _ _ Hstale) in Hcall.
    destruct (refreshTimestamps_cases U area w)
      as [(info & code & body & text & Harea & Hreply & Hxml)|(err & w1 & Herr & _)].
    + rewrite (refreshTimestamps_ok _ _ _ _ _ _ _ Harea Hreply Hxml) in Hcall.
      injection Hcall as <- <-. split.
      * eexists. split; [apply lookup_insert_eq | reflexivity].
      * unfold sent, refreshed; cbn [requests]. rewrite length_app. simpl. lia.
    + rewrite Herr in Hcall. discriminate.
Qed.

(** C5. When [getTimestamps(area)] finds an unexpired cache entry it
    returns the entry's sequence verbatim, sends nothing upstream and
    leaves the cache as it is (only a log line is written). Hence, when the
    entry comes from an earlier call for the area that returned [ts] and
    nothing was sent in between, this call returns the same [ts], and both
    calls together sent at most one request. *)
Theorem getTimestamps_serves_unexpired_entry (U : Upstream) (area : string)
  (w : World) (e : CacheEntry) :
  cache w !! area = Some e ->
  clock w < Expiry e ->
  let res := Cached.getTimestamps U area w in
  fst res = Ok (Timestamps e)
  /\ requests (snd res) = requests w
  /\ cache (snd res) = cache w
  /\ clock (snd res) = clock w
  /\ (forall (U0 : Upstream) (w0 w1 : World) (ts : list string),
         Cached.getTimestamps U0 area w0 = (Ok ts, w1) ->
         cache w !! area = cache w1 !! area ->
         requests w = requests w1 ->
         fst res = Ok ts /\ (sent (snd res) <= sent w0 + 1)%nat).
Proof.
  intros Hfound Hbefore res. subst res.
  rewrite (getTimestamps_fresh _ _ _ _ Hfound Hbefore).
  cbn [fst snd logged requests cache clock].
  do 4 (split; [reflexivity|]).
  intros U0 w0 w1 ts Hfirst Hentry Hquiet.
  apply getTimestamps_ok_cached in Hfirst as [(e1 & He1 & <-) Hsent].
  rewrite Hfound, He1 in Hentry. injection Hentry as ->.
  split; [reflexivity|].
  unfold sent, logged in *. cbn [requests]. rewrite Hquiet. exact Hsent.
Qed.

(** ** What the cache can hold *)

Lemma recentTimestamps_bounds (text : string) :
  (1 <= List.length (Cached.recentTimestamps (GoStrings.Split text ",")) <= 12)%nat.
Proof.
  rewrite recentTimestamps_length.
  pose proof (Split_nonempty text ","). lia.
Qed.

Lemma getTimestamps_bounded (U : Upstream) (area : string) (w : World) :
  cacheBounded w ->
  cacheBounded (snd (Cached.getTimestamps U area w))
  /\ (forall ts, fst (Cached.getTimestamps U area w) = Ok ts ->
                 (1 <= List.length ts <= 12)%nat).
Proof.
  intros Hinv.
  destruct (getTimestamps_cases U area w) as [(e & Hfound & Hbefore)|Hstale].
  - rewrite (getTimestamps_fresh _ _ _ _ Hfound Hbefore). cbn [fst snd]. split.
    + exact Hinv.
    + intros ts [= <-]. eapply Hinv, Hfound.
  - rewrite (getTimestamps_stale _ _ _ Hstale).
    destruct (refreshTimestamps_cases U area w)
      as [(info & code & body & text & Harea & Hreply & Hxml)|(err & w1 & Herr & Hcache & _)].
    + rewrite (refreshTimestamps_ok _ _ _ _ _ _ _ Harea Hreply Hxml). cbn [fst snd]. split.
      * intros a e. unfold refreshed; cbn [cache]. rewrite lookup_insert.
        destruct (decide (area = a)) as [->|Hne].
        -- intros [= <-]. cbn [Timestamps].
           split; [eauto | apply recentTimestamps_bounds].
        -- apply Hinv.
      * intros ts [= <-]. apply recentTimestamps_bounds.
    + rewrite Herr. cbn [fst snd]. split.
      * intros a e. rewrite Hcache. apply Hinv.
      * intros ts [=].
Qed.

(** ** Fetching a tile *)

Lemma prefix_append (p u rest : string) :
  String.prefix p u = true -> String.prefix p (u +:+ rest) = true.
Proof.
  revert p. induction u as [|b u IH]; intros p H.
  - destruct p; [simpl; destruct rest; reflexivity | discriminate H].
  - destruct p as [|a p]; [reflexivity|]. simpl in *.
    destruct (ascii_dec a b); [apply IH, H | discriminate H].
Qed.

Lemma hasHTTPScheme_append (u rest : string) :
  hasHTTPScheme u = true -> hasHTTPScheme (u +:+ rest) = true.
Proof.
  unfold hasHTTPScheme. rewrite !orb_true_iff.
  intros [H|H]; [left|right]; apply prefix_append, H.
Qed.

Lemma clientGet_sent (U : Upstream) (url : string) (w : World) :
  hasHTTPScheme url = true ->
  clientGet U url w = (roundTrip U (clock w) url, afterGet U url w).
Proof. intros H. unfold clientGet. rewrite H. reflexivity. Qed.

Lemma fetchWmsTile_sent (U : Upstream) (wms : WMSInfo) (bbox time : string)
  (w : World) :
  hasHTTPScheme (URL wms) = true ->
  Cached.fetchWmsTile U wms bbox time w
  = (tileOfReply U (roundTrip U (clock w) (Cached.wmsURL wms bbox time)),
     afterGet U (Cached.wmsURL wms bbox time) w).
Proof.
  intros Hscheme.
  unfold Cached.fetchWmsTile, bind.
  rewrite clientGet_sent by (apply hasHTTPScheme_append, Hscheme).
  unfold tileOfReply, ret, StatusOK.
  destruct (roundTrip U (clock w) (Cached.wmsURL wms bbox time)) as [err|code body];
    [reflexivity|].
  destruct (code =? 200); reflexivity.
Qed.

(** Without a scheme in the layer's URL (the zero [WMSInfo]) the client
    refuses the request and nothing is sent. *)
Lemma fetchWmsTile_unsent (U : Upstream) (bbox time : string) (w : World) :
  exists err, Cached.fetchWmsTile U zeroWMSInfo bbox time w = (Err err, w).
Proof.
  unfold Cached.fetchWmsTile, bind, clientGet.
  replace (hasHTTPScheme (Cached.wmsURL zeroWMSInfo bbox time)) with false
    by reflexivity.
  eexists. reflexivity.
Qed.

(** [fetchWmsTile] writes no log line and leaves the cache alone, and
    sends at most one request. *)
Lemma fetchWmsTile_frame (U : Upstream) (wms : WMSInfo) (bbox time : string)
  (w : World) :
  let w' := snd (Cached.fetchWmsTile U wms bbox time w) in
  logs w' = logs w /\ cache w' = cache w /\ (sent w <= sent w' <= sent w + 1)%nat.
Proof.
  unfold Cached.fetchWmsTile, bind, clientGet, sent.
  destruct (hasHTTPScheme (Cached.wmsURL wms bbox time)).
  - destruct (roundTrip U (clock w) (Cached.wmsURL wms bbox time)) as [err|code body];
      [|destruct (negb (code =? StatusOK))];
      cbn [snd ret logs cache requests]; rewrite length_app; simpl; repeat split; lia.
  - cbn [snd ret]. repeat split; lia.
Qed.

(** ** Serving a tile once the timestamp is known *)

Section ServeTile.

Variables (U : Upstream) (area : string) (x y zoom : Z) (timestamp : string).

Let radarInfo := default zeroWMSInfo (radarLayers !! area).
Let bbox := Cached.tileToBoundingBox x y zoom.

(** A failed base fetch: status 500 carrying the error text. *)
Lemma serveTile_base_failure (showAlerts : bool) (w w1 : World) (err : string) :
  Cached.fetchWmsTile U radarInfo bbox timestamp w = (Err err, w1) ->
  Cached.serveTile U area showAlerts x y zoom timestamp w
  = (httpError err StatusInternalServerError, w1).
Proof.
  intros Hbase. unfold Cached.serveTile, bind.
  fold radarInfo bbox. rewrite Hbase. reflexivity.
Qed.

(** No overlay asked for: the base image as it was decoded. *)
Lemma serveTile_plain (w w1 : World) (radarImg : Image) :
  Cached.fetchWmsTile U radarInfo bbox timestamp w = (Ok radarImg, w1) ->
  Cached.serveTile U area false x y zoom timestamp w = (writePNG radarImg, w1).
Proof.
  intros Hbase. unfold Cached.serveTile, bind.
  fold radarInfo bbox. rewrite Hbase. reflexivity.
Qed.

(** The overlay fetched: base and overlay composited. *)
Lemma serveTile_composite (w w1 w2 : World) (radarImg alertsImg : Image) :
  Cached.fetchWmsTile U radarInfo bbox timestamp w = (Ok radarImg, w1) ->
  Cached.fetchWmsTile U hazardsLayer bbox timestamp w1 = (Ok alertsImg, w2) ->
  Cached.serveTile U area true x y zoom timestamp w
  = (writePNG (Composite radarImg alertsImg), w2).
Proof.
  intros Hbase Halerts. unfold Cached.serveTile, bind.
  fold radarInfo bbox. rewrite Hbase, Halerts. reflexivity.
Qed.

(** A failed overlay fetch: the base image, and not a word in the log. *)
Lemma serveTile_overlay_failure (w w1 w2 : World) (radarImg : Image) (err : string) :
  Cached.fetchWmsTile U radarInfo bbox timestamp w = (Ok radarImg, w1) ->
  Cached.fetchWmsTile U hazardsLayer bbox timestamp w1 = (Err err, w2) ->
  Cached.serveTile U area true x y zoom timestamp w = (writePNG radarImg, w2)
  /\ logs w2 = logs w.
Proof.
  intros Hbase Halerts. split.
  - unfold Cached.serveTile, bind.
    fold radarInfo bbox. rewrite Hbase, Halerts. reflexivity.
  - pose proof (fetchWmsTile_frame U radarInfo bbox timestamp w) as (H1 & _).
    pose proof (fetchWmsTile_frame U hazardsLayer bbox timestamp w1) as (H2 & _).
    rewrite Hbase in H1. rewrite Halerts in H2. simpl in H1, H2. congruence.
Qed.

(** [serveTile] answers 200 or 500, keeps the cache and the log, and sends
    at most two requests. *)
Lemma serveTile_frame (showAlerts : bool) (w : World) :
  let res := Cached.serveTile U area showAlerts x y zoom timestamp w in
  (statusOf (fst res) = Some 200 \/ statusOf (fst res) = Some 500)
  /\ cache (snd res) = cache w
  /\ logs (snd res) = logs w
  /\ (sent w <= sent (snd res) <= sent w + 2)%nat.
Proof.
  unfold Cached.serveTile, bind. fold radarInfo bbox.
  pose proof (fetchWmsTile_frame U radarInfo bbox timestamp w) as (L1 & C1 & S1).
  destruct (Cached.fetchWmsTile U radarInfo bbox timestamp w) as [[radarImg|err] w1].
  2: { cbn in *. repeat split; auto; lia. }
  destruct showAlerts.
  2: { cbn in *. repeat split; auto; lia. }
  pose proof (fetchWmsTile_frame U hazardsLayer bbox timestamp w1) as (L2 & C2 & S2).
  destruct (Cached.fetchWmsTile U hazardsLayer bbox timestamp w1) as [[alertsImg|err] w2];
    cbn in *; repeat split; auto; try congruence; lia.
Qed.

(** For a configured area the base request always goes out. *)
Lemma serveTile_sends (info : WMSInfo) (showAlerts : bool) (w : World) :
  radarLayers !! area = Some info ->
  (sent w < sent (snd (Cached.serveTile U area showAlerts x y zoom timestamp w)))%nat.
Proof.
  intros Harea. unfold Cached.serveTile, bind. rewrite Harea. cbn [default].
  fold bbox.
  rewrite fetchWmsTile_sent by apply (radarLayers_scheme _ _ Harea).
  assert (Hone : (sent w < sent (afterGet U (Cached.wmsURL info bbox timestamp) w))%nat)
    by (unfold sent, afterGet; cbn [requests]; rewrite length_app; simpl; lia).
  destruct (tileOfReply U _) as [radarImg|err]; [|exact Hone].
  destruct showAlerts; [|exact Hone].
  pose proof (fetchWmsTile_frame U hazardsLayer bbox timestamp
                (afterGet U (Cached.wmsURL info bbox timestamp) w)) as (_ & _ & S2).
  destruct (Cached.fetchWmsTile U hazardsLayer bbox timestamp _) as [[alertsImg|err] w2];
    cbn in *; lia.
Qed.

End ServeTile.

(** ** The tile handler of the [Cached] revision *)

Lemma index_ok (parts : list string) (i : nat) :
  (i < List.length parts)%nat -> exists p, index parts i = Ok p.
Proof.
  intros Hi. unfold index.
  destruct (nth_error parts i) eqn:Hnth; [eauto|].
  apply nth_error_None in Hnth. lia.
Qed.

Lemma index_panics (parts : list string) (i : nat) :
  (List.length parts <= i)%nat -> exists msg, index parts i = Err msg.
Proof.
  intros Hi. unfold index.
  destruct (nth_error parts i) eqn:Hnth; [|eauto].
  assert (nth_error parts i <> None) as Hsome by congruence.
  apply nth_error_Some in Hsome. lia.
Qed.

Ltac known_segments r :=
  let p2 := fresh "p" in
  let p3 := fresh "p" in
  let p4 := fresh "p" in
  destruct (index_ok (segments r) 2 ltac:(lia)) as [p2 ->];
  destruct (index_ok (segments r) 3 ltac:(lia)) as [p3 ->];
  destruct (index_ok (segments r) 4 ltac:(lia)) as [p4 ->].

(** Fewer than five segments: the handler panics on [parts[i]] before it
    has done anything. *)
Lemma tileHandler_short_path (U : Upstream) (r : Request) (w : World) :
  (List.length (segments r) < 5)%nat ->
  exists msg, Cached.tileHandler U r w = (Panicked msg, w).
Proof.
  intros Hshort. unfold Cached.tileHandler. fold (segments r).
  destruct (index_panics (segments r) 4 ltac:(lia)) as [m4 H4]. rewrite H4.
  destruct (index (segments r) 2) as [p2|m2]; [|eauto].
  destruct (index (segments r) 3) as [p3|m3]; eauto.
Qed.

(** Five segments or more and a [time] parameter: the tile is served for
    that time, whatever the segments, the zoom and the area are. *)
Lemma tileHandler_with_time (U : Upstream) (r : Request) (w : World) :
  (5 <= List.length (segments r))%nat ->
  GoUrl.Get (Query r) "time" <> "" ->
  exists x y zoom,
    Cached.tileHandler U r w
    = Cached.serveTile U (requestArea r) (requestAlerts r) x y zoom
        (GoUrl.Get (Query r) "time") w.
Proof.
  intros Hlen Htime. unfold Cached.tileHandler. fold (segments r).
  known_segments r.
  apply String.eqb_neq in Htime. rewrite Htime.
  eexists _, _, _. reflexivity.
Qed.

(** Five segments or more and no [time] parameter: the handler asks
    [getTimestamps]; an error is answered with 500, a sequence has its last
    element taken as the time. *)
Lemma tileHandler_latest (U : Upstream) (r : Request) (w : World) :
  (5 <= List.length (segments r))%nat ->
  GoUrl.Get (Query r) "time" = "" ->
  exists x y zoom,
    Cached.tileHandler U r w
    = match Cached.getTimestamps U (requestArea r) w with
      | (Err _, w1) =>
          (httpError "Could not get latest timestamp" StatusInternalServerError, w1)
      | (Ok [], w1) =>
          (httpError "Could not get latest timestamp" StatusInternalServerError, w1)
      | (Ok timestamps, w1) =>
          Cached.serveTile U (requestArea r) (requestAlerts r) x y zoom
            (List.last timestamps "") w1
      end.
Proof.
  intros Hlen Htime. unfold Cached.tileHandler. fold (segments r).
  known_segments r.
  rewrite Htime. cbn [String.eqb]. unfold bind. fold (requestArea r).
  eexists _, _, _.
  destruct (Cached.getTimestamps U (requestArea r) w) as [[ts|err] w1];
    [|reflexivity].
  destruct ts; reflexivity.
Qed.

(** The handler never answers 400; it keeps the cache bound. *)
Lemma tileHandler_frame (U : Upstream) (r : Request) (w : World) :
  let res := Cached.tileHandler U r w in
  (statusOf (fst res) = None \/ statusOf (fst res) = Some 200
   \/ statusOf (fst res) = Some 500)
  /\ (cacheBounded w -> cacheBounded (snd res)).
Proof.
  destruct (Nat.lt_ge_cases (List.length (segments r)) 5) as [Hshort|Hlen].
  { destruct (tileHandler_short_path U r w Hshort) as [msg ->]. cbn. auto. }
  destruct (String.eqb_spec (GoUrl.Get (Query r) "time") "") as [Htime|Htime].
  - destruct (tileHandler_latest U r w Hlen Htime) as (x & y & zoom & ->).
    pose proof (getTimestamps_bounded U (requestArea r) w) as Hb.
    destruct (Cached.getTimestamps U (requestArea r) w) as [[ts|err] w1];
      cbn [fst snd] in Hb.
    + destruct ts as [|t ts].
      * cbn. split; [auto | intros Hinv; apply Hb, Hinv].
      * pose proof (serveTile_frame U (requestArea r) x y zoom
                      (List.last (t :: ts) "") (requestAlerts r) w1)
          as (Hst & Hc & _).
        cbv zeta in *. split; [tauto|].
        intros Hinv a e. rewrite Hc. apply Hb, Hinv.
    + cbn. split; [auto | intros Hinv; apply Hb, Hinv].
  - destruct (tileHandler_with_time U r w Hlen Htime) as (x & y & zoom & ->).
    pose proof (serveTile_frame U (requestArea r) x y zoom
                  (GoUrl.Get (Query r) "time") (requestAlerts r) w)
      as (Hst & Hc & _).
    cbv zeta in *. split; [tauto|].
    intros Hinv a e. rewrite Hc. apply Hinv.
Qed.

Lemma framesHandler_bounded (U : Upstream) (r : Request) (w : World) :
  cacheBounded w -> cacheBounded (snd (Cached.framesHandler U r w)).
Proof.
  intros Hinv. unfold Cached.framesHandler, bind.
  pose proof (getTimestamps_bounded U (requestArea r) w Hinv) as [Hb _].
  fold (requestArea r).
  destruct (Cached.getTimestamps U (requestArea r) w) as [[ts|err] w1];
    exact Hb.
Qed.

Lemma reachable_bounded (w : World) : reachable w -> cacheBounded w.
Proof.
  induction 1 as [now|w dt _ IH _|U r w _ IH|U r w _ IH].
  - intros a e. unfold startWorld; cbn [cache]. rewrite lookup_empty. discriminate.
  - exact IH.
  - apply tileHandler_frame, IH.
  - apply framesHandler_bounded, IH.
Qed.

(** ** Areas the table does not have *)

Lemma refreshTimestamps_unknown (U : Upstream) (area : string) (w : World) :
  radarLayers !! area = None ->
  Cached.refreshTimestamps U area w
  = (Err ("invalid area: " +:+ area),
     logged w ("Fetching new timestamps for '" +:+ area +:+ "'")).
Proof.
  intros Harea. unfold Cached.refreshTimestamps, bind, logPrint.
  rewrite Harea. reflexivity.
Qed.

Lemma getTimestamps_unknown (U : Upstream) (area : string) (w : World) :
  reachable w ->
  radarLayers !! area = None ->
  Cached.getTimestamps U area w
  = (Err ("invalid area: " +:+ area),
     logged w ("Fetching new timestamps for '" +:+ area +:+ "'")).
Proof.
  intros Hreach Harea.
  rewrite getTimestamps_stale; [apply refreshTimestamps_unknown, Harea|].
  unfold stale. destruct (cache w !! area) as [e|] eqn:Hentry; [|exact I].
  apply (reachable_bounded w Hreach) in Hentry as [[info Hinfo] _]. congruence.
Qed.

Lemma refreshTimestamps_sends (U : Upstream) (area : string) (info : WMSInfo)
  (w : World) :
  radarLayers !! area = Some info ->
  sent (snd (Cached.refreshTimestamps U area w)) = (sent w + 1)%nat.
Proof.
  intros Harea. unfold Cached.refreshTimestamps, bind, logPrint.
  rewrite Harea. fold (capabilitiesURL info).
  rewrite clientGet_sent by (apply (radarLayers_https _ _ _ Harea)).
  destruct (roundTrip U _ _) as [err|code body];
    [|destruct (xmlDimension U body)];
    unfold sent; cbn; rewrite length_app; simpl; lia.
Qed.

(** For a configured area and a reachable world, a request without [time]
    puts at least one request on the network. *)
Lemma tileHandler_latest_sends (U : Upstream) (r : Request) (w : World)
  (info : WMSInfo) :
  reachable w ->
  (5 <= List.length (segments r))%nat ->
  GoUrl.Get (Query r) "time" = "" ->
  radarLayers !! requestArea r = Some info ->
  (sent w < sent (snd (Cached.tileHandler U r w)))%nat.
Proof.
  intros Hreach Hlen Htime Harea.
  destruct (tileHandler_latest U r w Hlen Htime) as (x & y & zoom & ->).
  destruct (getTimestamps_cases U (requestArea r) w) as [(e & Hfound & Hbefore)|Hstale].
  - rewrite (getTimestamps_fresh _ _ _ _ Hfound Hbefore).
    apply (reachable_bounded w Hreach) in Hfound as [_ Hlen12].
    destruct (Timestamps e) as [|t ts] eqn:Hts; [simpl in Hlen12; lia|].
    pose proof (serveTile_sends U (requestArea r) x y zoom (List.last (t :: ts) "")
                  info (requestAlerts r)
                  (logged w ("Returning cached timestamps for '" +:+ requestArea r +:+ "'"))
                  Harea) as Hs.
    exact Hs.
  - rewrite (getTimestamps_stale _ _ _ Hstale).
    pose proof (refreshTimestamps_sends U _ _ w Harea) as Hs.
    destruct (Cached.refreshTimestamps U (requestArea r) w) as [[ts|err] w1];
      cbn [snd] in Hs.
    + destruct ts as [|t ts]; [cbn [snd]; lia|].
      pose proof (serveTile_frame U (requestArea r) x y zoom (List.last (t :: ts) "")
                    (requestAlerts r) w1) as (_ & _ & _ & Hm).
      cbv zeta in Hm. lia.
    + cbn [snd]. lia.
Qed.

(** C10. In every world the server can reach, a sequence that
    [getTimestamps] returns has between 1 and 12 elements, so the tile
    handler, given a sequence, goes on to serve the tile for its last
    element: its [Could not get latest timestamp] answer needs an error from
    [getTimestamps]. Splitting an empty Dimension text gives one empty
    string, which is then the single timestamp returned. *)
Theorem getTimestamps_returns_1_to_12 (U : Upstream) (area : string)
  (r : Request) (w : World) :
  reachable w ->
  (forall ts, fst (Cached.getTimestamps U area w) = Ok ts ->
              (1 <= List.length ts <= 12)%nat)
  /\ (forall ts w1,
         Cached.getTimestamps U (requestArea r) w = (Ok ts, w1) ->
         (5 <= List.length (segments r))%nat ->
         GoUrl.Get (Query r) "time" = "" ->
         exists x y zoom,
           Cached.tileHandler U r w
           = Cached.serveTile U (requestArea r) (requestAlerts r) x y zoom
               (List.last ts "") w1)
  /\ GoStrings.Split "" "," = [""]
  /\ (forall info code body,
         stale w area ->
         radarLayers !! area = Some info ->
         roundTrip U (clock w) (capabilitiesURL info) = HTTPResponse code body ->
         xmlDimension U body = Ok "" ->
         fst (Cached.getTimestamps U area w) = Ok [""]).
Proof.
  intros Hreach. pose proof (reachable_bounded w Hreach) as Hinv.
  split; [|split; [|split]].
  - apply getTimestamps_bounded, Hinv.
  - intros ts w1 Hcall Hlen Htime.
    destruct (tileHandler_latest U r w Hlen Htime) as (x & y & zoom & ->).
    pose proof (getTimestamps_bounded U (requestArea r) w Hinv) as [_ Hb].
    rewrite Hcall in *. specialize (Hb ts eq_refl).
    destruct ts as [|t ts]; [simpl in Hb; lia|].
    eexists _, _, _. reflexivity.
  - reflexivity.
  - intros info code body Hstale Harea Hreply Hxml.
    rewrite (getTimestamps_stale _ _ _ Hstale).
    rewrite (refreshTimestamps_ok _ _ _ _ _ _ _ Harea Hreply Hxml). reflexivity.
Qed.

(** ** What the [Cached] handler does with requests it should refuse *)

Lemma tileHandler_status_not_400 (U : Upstream) (r : Request) (w : World) :
  statusOf (fst (Cached.tileHandler U r w)) <> Some StatusBadRequest.
Proof.
  destruct (tileHandler_frame U r w) as [[H|[H|H]] _]; cbv zeta in H;
    rewrite H; discriminate.
Qed.

(** C1. [GET /tiles/99/0/0.png] is not refused by the [Cached] handler:
    in every reachable world the answer is not 400 and at least one request
    goes upstream; with a [time] parameter a zoom of 99, and likewise a
    zoom of -1, is handed to [serveTile] as it is. *)
Theorem tileHandler_serves_zoom_99 (U : Upstream) (w : World) :
  reachable w ->
  let res := Cached.tileHandler U (tileRequest "/tiles/99/0/0.png" []) w in
  statusOf (fst res) <> Some StatusBadRequest
  /\ (sent w < sent (snd res))%nat
  /\ Cached.tileHandler U
       (tileRequest "/tiles/99/0/0.png" [("time", "2025-07-01T00:10:00.000Z")]) w
     = Cached.serveTile U "conus" false 0 0 99 "2025-07-01T00:10:00.000Z" w
  /\ Cached.tileHandler U
       (tileRequest "/tiles/-1/0/0.png" [("time", "2025-07-01T00:10:00.000Z")]) w
     = Cached.serveTile U "conus" false 0 0 (-1) "2025-07-01T00:10:00.000Z" w.
Proof.
  intros Hreach res. subst res.
  split; [apply tileHandler_status_not_400|].
  split; [|split; reflexivity].
  eapply tileHandler_latest_sends.
  - exact Hreach.
  - cbn. lia.
  - reflexivity.
  - reflexivity.
Qed.

(** C2. [GET /tiles/8/79/98.png?area=mars] is answered with 500, not 400:
    without [time] the error of [getTimestamps] becomes [Could not get
    latest timestamp]; with [time] the zero [WMSInfo] is fetched from and
    the client's own error comes back. Nothing is sent either way. *)
Theorem tileHandler_unknown_area_is_500 (U : Upstream) (w : World) :
  reachable w ->
  Cached.tileHandler U (tileRequest "/tiles/8/79/98.png" [("area", "mars")]) w
  = (httpError "Could not get latest timestamp" StatusInternalServerError,
     logged w "Fetching new timestamps for 'mars'")
  /\ exists err,
      Cached.tileHandler U
        (tileRequest "/tiles/8/79/98.png"
           [("area", "mars"); ("time", "2025-07-01T00:10:00.000Z")]) w
      = (httpError err StatusInternalServerError, w).
Proof.
  intros Hreach. split.
  - destruct (tileHandler_latest U
                (tileRequest "/tiles/8/79/98.png" [("area", "mars")]) w)
      as (x & y & zoom & ->); [cbn; lia | reflexivity |].
    change (requestArea _) with "mars".
    rewrite (getTimestamps_unknown U "mars" w Hreach eq_refl). reflexivity.
  - destruct (fetchWmsTile_unsent U (Cached.tileToBoundingBox 79 98 8)
                "2025-07-01T00:10:00.000Z" w) as [err Herr].
    exists err.
    apply (serveTile_base_failure U "mars" 79 98 8 "2025-07-01T00:10:00.000Z" false w w err).
    exact Herr.
Qed.

(** C7. The [Cached] handler looks the [area] value up as it was written:
    [area=CONUS] is not in the table, so in every reachable world the
    request ends in 500 with nothing sent, while [area=conus] goes to the
    conus server. *)
Theorem tileHandler_area_is_case_sensitive (U : Upstream) (w : World) :
  reachable w ->
  Cached.tileHandler U (tileRequest "/tiles/8/79/98.png" [("area", "CONUS")]) w
  = (httpError "Could not get latest timestamp" StatusInternalServerError,
     logged w "Fetching new timestamps for 'CONUS'")
  /\ radarLayers !! "CONUS" = None
  /\ is_Some (radarLayers !! "conus")
  /\ (sent w < sent (snd (Cached.tileHandler U
                            (tileRequest "/tiles/8/79/98.png" [("area", "conus")]) w)))%nat.
Proof.
  intros Hreach. split; [|split; [reflexivity|split; [eexists; reflexivity|]]].
  - destruct (tileHandler_latest U
                (tileRequest "/tiles/8/79/98.png" [("area", "CONUS")]) w)
      as (x & y & zoom & ->); [cbn; lia | reflexivity |].
    change (requestArea _) with "CONUS".
    rewrite (getTimestamps_unknown U "CONUS" w Hreach eq_refl). reflexivity.
  - eapply tileHandler_latest_sends.
    + exact Hreach.
    + cbn. lia.
    + reflexivity.
    + reflexivity.
Qed.

(** C6. The [Cached] handler refuses no path: it never answers 400; a path
    of four segments makes it panic on [parts[4]] before anything is
    fetched; a last segment without [.png], segments that are no integers
    (read as 0) and segments past the fifth are served like the well-formed
    path they are read as. *)
Theorem tileHandler_refuses_no_path (U : Upstream) (r : Request)
  (q : GoUrl.Values) (w : World) :
  statusOf (fst (Cached.tileHandler U r w)) <> Some StatusBadRequest
  /\ Cached.tileHandler U (tileRequest "/tiles/8/79" q) w
     = (Panicked "runtime error: index out of range [4] with length 4", w)
  /\ Cached.tileHandler U (tileRequest "/tiles/8/79/98" q) w
     = Cached.tileHandler U (tileRequest "/tiles/8/79/98.png" q) w
  /\ Cached.tileHandler U (tileRequest "/tiles/abc/7x/9.9.png" q) w
     = Cached.tileHandler U (tileRequest "/tiles/0/0/0.png" q) w
  /\ Cached.tileHandler U (tileRequest "/tiles/8/79/98.png/extra" q) w
     = Cached.tileHandler U (tileRequest "/tiles/8/79/98.png" q) w.
Proof.
  split; [apply tileHandler_status_not_400|].
  repeat split; reflexivity.
Qed.

(** C3. Once the timestamp is known: a failed base fetch (a transport
    error, a status other than 200, a body that does not decode) is
    answered with 500 and the error text, never an image; when only the
    overlay fetch fails the answer is 200 with the base image as it was
    decoded -- and the log is left as it was: this revision writes no line
    for the failure. *)
Theorem serveTile_failures (U : Upstream) (area : string) (x y zoom : Z)
  (timestamp : string) (w : World) :
  let radarInfo := default zeroWMSInfo (radarLayers !! area) in
  let bbox := Cached.tileToBoundingBox x y zoom in
  let base := Cached.fetchWmsTile U radarInfo bbox timestamp w in
  let alerts := Cached.fetchWmsTile U hazardsLayer bbox timestamp (snd base) in
  (forall info, radarLayers !! area = Some info ->
     fst base = tileOfReply U (roundTrip U (clock w)
                                 (Cached.wmsURL info bbox timestamp)))
  /\ (forall showAlerts err,
        fst base = Err err ->
        Cached.serveTile U area showAlerts x y zoom timestamp w
        = (httpError err StatusInternalServerError, snd base))
  /\ (forall radarImg err,
        fst base = Ok radarImg ->
        fst alerts = Err err ->
        Cached.serveTile U area true x y zoom timestamp w
        = (writePNG radarImg, snd alerts)
        /\ logs (snd alerts) = logs w).
Proof.
  intros radarInfo bbox base alerts. split; [|split].
  - intros info Harea. subst base radarInfo. rewrite Harea. cbn [default].
    rewrite fetchWmsTile_sent by apply (radarLayers_scheme _ _ Harea).
    reflexivity.
  - intros showAlerts err Hbase.
    apply serveTile_base_failure. fold radarInfo bbox base.
    rewrite <- Hbase. apply surjective_pairing.
  - intros radarImg err Hbase Halerts.
    apply (serveTile_overlay_failure U area x y zoom timestamp w (snd base)
             (snd alerts) radarImg err).
    + fold radarInfo bbox base. rewrite <- Hbase. apply surjective_pairing.
    + fold bbox. fold alerts. rewrite <- Halerts. apply surjective_pairing.
Qed.

(** ** The bounding box *)

(** C8. [tileToBoundingBox(0, 0, 0)] is the whole world: each corner is
    within 1e-7 m of -20037508.3427892 or 20037508.3427892, and the string
    the [Cached] revision returns is those values to six decimals. *)
Theorem tileToBoundingBox_whole_world :
  let b := Simple.tileToBoundingBox 0 0 0 in
  within (1 # 10000000) (-200375083427892 # 10000000) (minX b)
  /\ within (1 # 10000000) (-200375083427892 # 10000000) (minY b)
  /\ within (1 # 10000000) (200375083427892 # 10000000) (maxX b)
  /\ within (1 # 10000000) (200375083427892 # 10000000) (maxY b)
  /\ Cached.tileToBoundingBox 0 0 0
     = "-20037508.342789,-20037508.342789,20037508.342789,20037508.342789".
Proof.
  cbv zeta. unfold within.
  repeat split; try (apply Qle_bool_imp_le; vm_compute; reflexivity).
Qed.

Lemma float_neq (a b : float) : Prim2SF a <> Prim2SF b -> a <> b.
Proof. intros H ->. apply H. reflexivity. Qed.

(** C9 as stated fails. Width taken as [maxX - minX]: the box of tile
    (0, 0) is 0x1.31bf8457c1093p+23 m (10018754.171394622) wide at zoom 2
    and 0x1.31bf8457c1094p+22 m (5009377.0856973119) at zoom 3, one unit in
    the last place more than half, and the exact difference of the corners
    is not halved either. Span taken as the function adds it: at zoom 1024
    the power of two is [+Inf] and the span 0, not half the span at zoom
    1023. *)
Lemma width_not_exactly_halved :
  boxWidth (Simple.tileToBoundingBox 0 0 2) = 0x1.31bf8457c1093p+23%float
  /\ boxWidth (Simple.tileToBoundingBox 0 0 (2 + 1)) = 0x1.31bf8457c1094p+22%float
  /\ boxWidth (Simple.tileToBoundingBox 0 0 (2 + 1))
     <> (boxWidth (Simple.tileToBoundingBox 0 0 2) / 2)%float
  /\ ~ (exactValue (maxX (Simple.tileToBoundingBox 0 0 (2 + 1)))
        - exactValue (minX (Simple.tileToBoundingBox 0 0 (2 + 1)))
        == (exactValue (maxX (Simple.tileToBoundingBox 0 0 2))
            - exactValue (minX (Simple.tileToBoundingBox 0 0 2))) / 2)%Q
  /\ tileSpan (1023 + 1) = 0%float
  /\ (tileSpan 1023 / 2)%float = 0x1.31bf8457c1093p-999%float.
Proof.
  split; [vm_compute; reflexivity|].
  split; [vm_compute; reflexivity|].
  split; [apply float_neq; vm_compute; discriminate|].
  split; [intros H; apply Qeq_bool_iff in H; vm_compute in H; discriminate H|].
  split; vm_compute; reflexivity.
Qed.

Lemma spanHalves_upto_1022 :
  forallb spanHalves (map Z.of_nat (seq 0 1023)) = true.
Proof. vm_compute. reflexivity. Qed.

(** C9, amended. For every zoom from 0 to 1022 the edge of a tile in
    metres, [resolution*TILE_SIZE] as [tileToBoundingBox] adds it to [minX]
    to get [maxX] and takes it from [maxY] to get [minY], is exactly
    halved by one more zoom level, and so is the resolution. *)
Theorem tileSpan_halves (zoom : Z) :
  0 <= zoom <= 1022 ->
  tileSpan (zoom + 1) = (tileSpan zoom / 2)%float
  /\ resolution (zoom + 1) = (resolution zoom / 2)%float
  /\ forall x y,
      maxX (Simple.tileToBoundingBox x y zoom)
      = (minX (Simple.tileToBoundingBox x y zoom) + tileSpan zoom)%float
      /\ minY (Simple.tileToBoundingBox x y zoom)
         = (maxY (Simple.tileToBoundingBox x y zoom) - tileSpan zoom)%float.
Proof.
  intros Hz.
  assert (Hb : spanHalves zoom = true).
  { pose proof spanHalves_upto_1022 as Hall.
    rewrite forallb_forall in Hall. apply Hall.
    apply in_map_iff. exists (Z.to_nat zoom). split; [lia|].
    apply in_seq. lia. }
  unfold spanHalves in Hb. apply andb_true_iff in Hb as [Hs Hr].
  apply FloatAxioms.Leibniz.eqb_spec in Hs, Hr.
  split; [exact Hs|]. split; [exact Hr|].
  intros x y. split; reflexivity.
Qed.

(** ** The guards of the earlier revisions *)

(** Both earlier revisions refuse a path that does not split into five
    pieces, before anything else happens. *)
Lemma Simple_refuses_segment_count (U : Upstream) (r : Request) (w : World) :
  List.length (segments r) <> 5%nat ->
  Simple.tileHandler U r w
  = (httpError "Invalid tile URL format. Expected /tiles/{z}/{x}/{y}.png"
               StatusBadRequest, w).
Proof.
  intros Hlen. unfold Simple.tileHandler. fold (segments r).
  apply Nat.eqb_neq in Hlen. rewrite Hlen. reflexivity.
Qed.

Lemma Overlay_refuses_segment_count (U : Upstream) (r : Request) (w : World) :
  List.length (segments r) <> 5%nat ->
  Overlay.tileHandler U r w
  = (httpError "Invalid tile URL format. Expected /tiles/{z}/{x}/{y}.png"
               StatusBadRequest, w).
Proof.
  intros Hlen. unfold Overlay.tileHandler. fold (segments r).
  apply Nat.eqb_neq in Hlen. rewrite Hlen. reflexivity.
Qed.

(** The first revision also refuses a segment [Atoi] rejects. *)
Lemma Simple_refuses_non_integer (U : Upstream) (r : Request) (w : World) :
  List.length (segments r) = 5%nat ->
  snd (GoStrconv.Atoi (nth 2 (segments r) "")) <> None
  \/ snd (GoStrconv.Atoi (nth 3 (segments r) "")) <> None
  \/ snd (GoStrconv.Atoi (GoStrings.TrimSuffix (nth 4 (segments r) "") ".png")) <> None ->
  Simple.tileHandler U r w
  = (httpError "Invalid zoom, x, or y value." StatusBadRequest, w).
Proof.
  intros Hlen Hbad. unfold Simple.tileHandler. fold (segments r).
  rewrite Hlen. cbn [Nat.eqb negb].
  destruct (GoStrconv.Atoi (nth 2 (segments r) "")) as [zoom errZ].
  destruct (GoStrconv.Atoi (nth 3 (segments r) "")) as [x errX].
  destruct (GoStrconv.Atoi (GoStrings.TrimSuffix (nth 4 (segments r) "") ".png"))
    as [y errY].
  cbn [snd] in Hbad.
  destruct errZ, errX, errY; try reflexivity.
  exfalso. intuition congruence.
Qed.

(** Both earlier revisions refuse a zoom above 22 and send nothing. *)
Lemma Simple_refuses_zoom_above_22 (U : Upstream) (r : Request) (w : World)
  (zoom x y : Z) :
  List.length (segments r) = 5%nat ->
  GoStrconv.Atoi (nth 2 (segments r) "") = (zoom, None) ->
  GoStrconv.Atoi (nth 3 (segments r) "") = (x, None) ->
  GoStrconv.Atoi (GoStrings.TrimSuffix (nth 4 (segments r) "") ".png") = (y, None) ->
  22 < zoom ->
  Simple.tileHandler U r w = (httpError "Invalid zoom level." StatusBadRequest, w).
Proof.
  intros Hlen Hz Hx Hy Hbig. unfold Simple.tileHandler. fold (segments r).
  rewrite Hlen, Hz, Hx, Hy. cbn [Nat.eqb negb bool_decide andb].
  rewrite !bool_decide_eq_true_2 by reflexivity. cbn [negb andb].
  destruct (Z.gtb_spec zoom 22); [reflexivity | lia].
Qed.

Lemma Overlay_refuses_zoom_above_22 (U : Upstream) (r : Request) (w : World) :
  List.length (segments r) = 5%nat ->
  22 < fst (GoStrconv.Atoi (nth 2 (segments r) "")) ->
  statusOf (fst (Overlay.tileHandler U r w)) = Some StatusBadRequest
  /\ requests (snd (Overlay.tileHandler U r w)) = requests w.
Proof.
  intros Hlen Hbig. unfold Overlay.tileHandler. fold (segments r).
  rewrite Hlen. cbn [Nat.eqb negb]. unfold bind, logPrint.
  destruct (Z.gtb_spec (fst (GoStrconv.Atoi (nth 2 (segments r) ""))) 22);
    [split; reflexivity | lia].
Qed.

(** The [Overlay] revision refuses an area its table lacks, folds the
    case of the [area] value, and logs a failed overlay fetch. *)
Lemma Overlay_refuses_unknown_area (U : Upstream) (r : Request) (w : World) :
  List.length (segments r) = 5%nat ->
  fst (GoStrconv.Atoi (nth 2 (segments r) "")) <= 22 ->
  radarLayers !! (let area := GoStrings.ToLower (GoUrl.Get (Query r) "area") in
                  if String.eqb area "" then "conus" else area) = None ->
  statusOf (fst (Overlay.tileHandler U r w)) = Some StatusBadRequest
  /\ requests (snd (Overlay.tileHandler U r w)) = requests w.
Proof.
  intros Hlen Hsmall Harea. unfold Overlay.tileHandler. fold (segments r).
  rewrite Hlen. cbn [Nat.eqb negb]. unfold bind, logPrint.
  destruct (Z.gtb_spec (fst (GoStrconv.Atoi (nth 2 (segments r) ""))) 22);
    [lia|].
  cbv zeta in Harea. rewrite Harea. split; reflexivity.
Qed.

Lemma Overlay_folds_area_case (U : Upstream) (w : World) :
  Overlay.tileHandler U (tileRequest "/tiles/8/79/98.png" [("area", "CONUS")]) w
  = Overlay.tileHandler U (tileRequest "/tiles/8/79/98.png" [("area", "conus")]) w.
Proof. reflexivity. Qed.

Lemma Overlay_logs_overlay_failure :
  let res := Overlay.tileHandler hazardsDown
               (tileRequest "/tiles/8/79/98.png" [("alerts", "true")])
               (startWorld 0) in
  statusOf (fst res) = Some StatusOK
  /\ logs (snd res)
     = ["Proxying request for tile z=8, x=79, y=98";
        "Could not fetch alerts layer: WMS server https://opengeo.ncep.noaa.gov/geoserver/wwa/hazards/ows returned status 503: Service Unavailable"].
Proof. vm_compute. split; reflexivity. Qed.

(** No revision refuses a negative zoom, nor a last segment without
    [.png]. *)
Lemma negative_zoom_served_by_all :
  statusOf (fst (Simple.tileHandler healthy (tileRequest "/tiles/-1/0/0.png" [])
                   (startWorld 0))) = Some StatusOK
  /\ statusOf (fst (Overlay.tileHandler healthy (tileRequest "/tiles/-1/0/0.png" [])
                      (startWorld 0))) = Some StatusOK
  /\ statusOf (fst (Cached.tileHandler healthy (tileRequest "/tiles/-1/0/0.png" [])
                      (startWorld 0))) = Some StatusOK.
Proof. vm_compute. repeat split; reflexivity. Qed.

Lemma png_suffix_optional_for_all (U : Upstream) (q : GoUrl.Values) (w : World) :
  Simple.tileHandler U (tileRequest "/tiles/8/79/98" q) w
  = Simple.tileHandler U (tileRequest "/tiles/8/79/98.png" q) w
  /\ Overlay.tileHandler U (tileRequest "/tiles/8/79/98" q) w
     = Overlay.tileHandler U (tileRequest "/tiles/8/79/98.png" q) w.
Proof. split; reflexivity. Qed.

(** ** The theorems at sample inputs *)

Lemma refresh_on_start :
  stale (startWorld 0) "conus"
  /\ fst (Cached.getTimestamps healthy "conus" (startWorld 0))
     = Ok ["2025-07-01T00:00:00.000Z"; "2025-07-01T00:05:00.000Z";
           "2025-07-01T00:10:00.000Z"]
  /\ clock (snd (Cached.getTimestamps healthy "conus" (startWorld 0))) = 1000000.
Proof.
  pose proof (getTimestamps_refresh_takes_last_12 healthy "conus" (startWorld 0)
                {| URL := "https://opengeo.ncep.noaa.gov/geoserver/conus/conus_bref_qcd/ows";
                   LayerName := "conus_bref_qcd" |}
                200
                "body of https://opengeo.ncep.noaa.gov/geoserver/conus/conus_bref_qcd/ows?service=wms&version=1.3.0&request=GetCapabilities"
                sampleFrames I eq_refl eq_refl eq_refl) as (Hres & _ & _ & _ & Hclock & _).
  split; [exact I|]. split; [exact Hres | exact Hclock].
Defined.

Lemma second_call_served_from_cache :
  clock warmWorld < 300001000000
  /\ fst (Cached.getTimestamps hazardsDown "conus" warmWorld)
     = Ok ["2025-07-01T00:00:00.000Z"; "2025-07-01T00:05:00.000Z";
           "2025-07-01T00:10:00.000Z"]
  /\ requests (snd (Cached.getTimestamps hazardsDown "conus" warmWorld))
     = requests warmWorld.
Proof.
  assert (Hbefore : clock warmWorld < 300001000000) by (vm_compute; reflexivity).
  pose proof (getTimestamps_serves_unexpired_entry hazardsDown "conus" warmWorld
                {| Timestamps := ["2025-07-01T00:00:00.000Z"; "2025-07-01T00:05:00.000Z";
                                  "2025-07-01T00:10:00.000Z"];
                   Expiry := 300001000000 |}
                ltac:(vm_compute; reflexivity) Hbefore) as (Hres & Hreq & _).
  split; [exact Hbefore|]. split; [exact Hres | exact Hreq].
Defined.

Lemma frames_on_start_bounded :
  reachable (startWorld 0)
  /\ forall ts, fst (Cached.getTimestamps healthy "conus" (startWorld 0)) = Ok ts ->
                (1 <= List.length ts <= 12)%nat.
Proof.
  split; [apply reachable_start|].
  exact (proj1 (getTimestamps_returns_1_to_12 healthy "conus"
                  (tileRequest "/tiles/8/79/98.png" []) (startWorld 0)
                  (reachable_start 0))).
Defined.

Lemma zoom_99_served_on_start :
  reachable (startWorld 0)
  /\ (sent (startWorld 0)
      < sent (snd (Cached.tileHandler healthy (tileRequest "/tiles/99/0/0.png" [])
                     (startWorld 0))))%nat.
Proof.
  split; [apply reachable_start|].
  exact (proj1 (proj2 (tileHandler_serves_zoom_99 healthy (startWorld 0)
                         (reachable_start 0)))).
Defined.

Lemma mars_is_500_on_start :
  reachable (startWorld 0)
  /\ statusOf (fst (Cached.tileHandler healthy
                      (tileRequest "/tiles/8/79/98.png" [("area", "mars")])
                      (startWorld 0)))
     = Some StatusInternalServerError.
Proof.
  split; [apply reachable_start|].
  rewrite (proj1 (tileHandler_unknown_area_is_500 healthy (startWorld 0)
                    (reachable_start 0))).
  reflexivity.
Defined.

Lemma upper_case_conus_is_500_on_start :
  reachable (startWorld 0)
  /\ statusOf (fst (Cached.tileHandler healthy
                      (tileRequest "/tiles/8/79/98.png" [("area", "CONUS")])
                      (startWorld 0)))
     = Some StatusInternalServerError.
Proof.
  split; [apply reachable_start|].
  rewrite (proj1 (tileHandler_area_is_case_sensitive healthy (startWorld 0)
                    (reachable_start 0))).
  reflexivity.
Defined.

Lemma overlay_failure_leaves_no_log_line :
  let res := Cached.tileHandler hazardsDown
               (tileRequest "/tiles/8/79/98.png"
                  [("alerts", "true"); ("time", sampleTime)])
               (startWorld 0) in
  statusOf (fst res) = Some StatusOK
  /\ logs (snd res) = []
  /\ sent (snd res) = 2%nat.
Proof.
  cbv zeta.
  change (Cached.tileHandler hazardsDown
            (tileRequest "/tiles/8/79/98.png" [("alerts", "true"); ("time", sampleTime)])
            (startWorld 0))
    with (Cached.serveTile hazardsDown "conus" true 79 98 8 sampleTime (startWorld 0)).
  destruct (serveTile_failures hazardsDown "conus" 79 98 8 sampleTime (startWorld 0))
    as (_ & _ & Hoverlay).
  destruct (Hoverlay
              (Decoded "body of https://opengeo.ncep.noaa.gov/geoserver/conus/conus_bref_qcd/ows?BBOX=-7670608.662474%2C4539747.983913%2C-7514065.628546%2C4696291.017841&CRS=EPSG%3A3857&FORMAT=image%2Fpng&HEIGHT=256&LAYERS=conus_bref_qcd&REQUEST=GetMap&SERVICE=WMS&TIME=2025-07-01T00%3A10%3A00.000Z&TRANSPARENT=true&VERSION=1.3.0&WIDTH=256")
              "WMS server returned status 503"
              ltac:(vm_compute; reflexivity) ltac:(vm_compute; reflexivity))
    as [Hserved Hlogs].
  rewrite Hserved. cbn [fst snd statusOf writePNG Status].
  split; [reflexivity|]. split; [exact Hlogs | vm_compute; reflexivity].
Defined.

Lemma span_halves_at_zoom_22 :
  0 <= 22 <= 1022 /\ tileSpan (22 + 1) = (tileSpan 22 / 2)%float.
Proof.
  split; [lia|].
  exact (proj1 (tileSpan_halves 22 ltac:(lia))).
Defined.

(** * Further properties of the code *)

(** ** The timestamp cache, continued *)

Lemma getTimestamps_again_is_a_hit_aux (U U' : Upstream) (area : string)
  (w w1 : World) (ts : list string) :
  Cached.getTimestamps U area w = (Ok ts, w1) ->
  Cached.getTimestamps U' area w1
  = (Ok ts, logged w1 ("Returning cached timestamps for '" +:+ area +:+ "'")).
Proof.
  intros Hcall.
  destruct (getTimestamps_cases U area w) as [(e & Hfound & Hbefore)|Hstale].
  - rewrite (getTimestamps_fresh _ _ _ _ Hfound Hbefore) in Hcall.
    injection Hcall as <- <-.
    apply (getTimestamps_fresh U' area _ e); [exact Hfound | exact Hbefore].
  - rewrite (getTimestamps_stale _ _ _ Hstale) in Hcall.
    destruct (refreshTimestamps_cases U area w)
      as [(info & code & body & text & Harea & Hreply & Hxml)|(err & w2 & Herr & _)].
    + rewrite (refreshTimestamps_ok _ _ _ _ _ _ _ Harea Hreply Hxml) in Hcall.
      injection Hcall as <- <-.
      rewrite (getTimestamps_fresh U' area (refreshed U area info text w)
                 {| Timestamps := Cached.recentTimestamps (GoStrings.Split text ",");
                    Expiry := clock (refreshed U area info text w) + 300000000000 |}).
      * reflexivity.
      * apply lookup_insert_eq.
      * cbn [Expiry]. lia.
    + rewrite Herr in Hcall. discriminate.
Qed.

(** X1. A call that returned a sequence makes the next call for the area,
    made right after it, a cache hit: the same sequence comes back, whatever
    the upstream would answer now, nothing is sent and only a log line is
    written. *)
Theorem getTimestamps_again_is_a_hit (U U' : Upstream) (area : string)
  (w w1 : World) (ts : list string) :
  Cached.getTimestamps U area w = (Ok ts, w1) ->
  let again := Cached.getTimestamps U' area w1 in
  fst again = Ok ts
  /\ requests (snd again) = requests w1
  /\ cache (snd again) = cache w1
  /\ logs (snd again)
     = (logs w1 ++ ["Returning cached timestamps for '" +:+ area +:+ "'"])%list.
Proof.
  intros Hcall again. subst again.
  rewrite (getTimestamps_again_is_a_hit_aux U U' _ _ _ _ Hcall).
  repeat split.
Qed.

(** X2. A call that returns an error found no unexpired entry, leaves the
    cache exactly as it was (an expired entry stays, nothing is stored) and
    sent at most one request. *)
Theorem getTimestamps_error_keeps_cache (U : Upstream) (area : string)
  (w w1 : World) (err : string) :
  Cached.getTimestamps U area w = (Err err, w1) ->
  stale w area
  /\ cache w1 = cache w
  /\ (sent w <= sent w1 <= sent w + 1)%nat.
Proof.
  intros Hcall.
  destruct (getTimestamps_cases U area w) as [(e & Hfound & Hbefore)|Hstale].
  - rewrite (getTimestamps_fresh _ _ _ _ Hfound Hbefore) in Hcall. discriminate.
  - split; [exact Hstale|].
    rewrite (getTimestamps_stale _ _ _ Hstale) in Hcall.
    destruct (radarLayers !! area) as [info|] eqn:Harea.
    + pose proof (refreshTimestamps_sends U area info w Harea) as Hsent.
      destruct (refreshTimestamps_cases U area w)
        as [(info' & code & body & text & Harea' & Hreply & Hxml)
           |(err' & w2 & Herr & Hcache & _)].
      * rewrite (refreshTimestamps_ok _ _ _ _ _ _ _ Harea' Hreply Hxml) in Hcall.
        discriminate.
      * rewrite Hcall in Herr, Hsent. injection Herr as _ <-.
        cbn [snd] in Hsent. split; [exact Hcache | lia].
    + rewrite (refreshTimestamps_unknown _ _ _ Harea) in Hcall.
      injection Hcall as _ <-. unfold sent, logged; cbn [cache requests].
      split; [reflexivity | lia].
Qed.

Lemma getTimestamps_cache_after (U : Upstream) (area : string) (w : World) :
  cache (snd (Cached.getTimestamps U area w)) = cache w
  \/ exists e, cache (snd (Cached.getTimestamps U area w)) = <[area := e]> (cache w).
Proof.
  destruct (getTimestamps_cases U area w) as [(e & Hfound & Hbefore)|Hstale].
  - rewrite (getTimestamps_fresh _ _ _ _ Hfound Hbefore). left. reflexivity.
  - rewrite (getTimestamps_stale _ _ _ Hstale).
    destruct (refreshTimestamps_cases U area w)
      as [(info & code & body & text & Harea & Hreply & Hxml)|(err & w2 & Herr & Hcache & _)].
    + rewrite (refreshTimestamps_ok _ _ _ _ _ _ _ Harea Hreply Hxml).
      right. eexists. reflexivity.
    + rewrite Herr. left. exact Hcache.
Qed.

(** X3. A call for one area never changes what is cached for another. *)
Theorem getTimestamps_keeps_other_areas (U : Upstream) (area other : string)
  (w : World) :
  area <> other ->
  cache (snd (Cached.getTimestamps U area w)) !! other = cache w !! other.
Proof.
  intros Hne.
  destruct (getTimestamps_cache_after U area w) as [->|[e ->]];
    [reflexivity | apply lookup_insert_ne, Hne].
Qed.

(** X4. With no entry, or one whose expiry the clock has reached (an
    entry expiring at this very instant counts as expired), a call for a
    configured area sends exactly one request, the area's GetCapabilities
    URL, whatever comes back. *)
Theorem getTimestamps_expired_asks_once (U : Upstream) (area : string)
  (w : World) (info : WMSInfo) :
  stale w area ->
  radarLayers !! area = Some info ->
  requests (snd (Cached.getTimestamps U area w))
  = (requests w ++ [capabilitiesURL info])%list.
Proof.
  intros Hstale Harea. rewrite (getTimestamps_stale _ _ _ Hstale).
  unfold Cached.refreshTimestamps, bind, logPrint.
  rewrite Harea. fold (capabilitiesURL info).
  rewrite clientGet_sent by (apply (radarLayers_https _ _ _ Harea)).
  destruct (roundTrip U _ _) as [err|code body];
    [|destruct (xmlDimension U body)]; reflexivity.
Qed.

(** X5. The cache never outgrows the layer table: in every reachable
    world its keys are configured areas, so it holds at most five entries. *)
Theorem cache_holds_at_most_five (w : World) :
  reachable w ->
  dom (cache w) ⊆ dom radarLayers /\ (size (cache w) <= 5)%nat.
Proof.
  intros Hreach.
  assert (Hsub : dom (cache w) ⊆ dom radarLayers).
  { intros a Ha. apply elem_of_dom in Ha as [e He]. apply elem_of_dom.
    apply (reachable_bounded w Hreach) in He as [Hcfg _]. exact Hcfg. }
  split; [exact Hsub|].
  rewrite <- size_dom. apply subseteq_size in Hsub.
  replace (size (dom radarLayers)) with 5%nat in Hsub by (vm_compute; reflexivity).
  exact Hsub.
Qed.

Lemma last_skipn {A} (l : list A) (n : nat) (d : A) :
  (n < List.length l)%nat -> List.last (skipn n l) d = List.last l d.
Proof.
  revert n. induction l as [|a l IH]; intros n Hn; [simpl in Hn; lia|].
  destruct n as [|n]; [reflexivity|].
  simpl in Hn. rewrite skipn_cons.
  rewrite IH by lia. destruct l; [simpl in Hn; lia | reflexivity].
Qed.

(** X6. A refresh keeps the newest frame: the last timestamp returned is
    the last comma-separated piece of the Dimension text, and a text of at
    most 12 pieces is returned whole. *)
Theorem getTimestamps_keeps_newest (U : Upstream) (area : string) (w : World)
  (info : WMSInfo) (code : Z) (body text : string) :
  stale w area ->
  radarLayers !! area = Some info ->
  roundTrip U (clock w) (capabilitiesURL info) = HTTPResponse code body ->
  xmlDimension U body = Ok text ->
  exists ts,
    fst (Cached.getTimestamps U area w) = Ok ts
    /\ List.last ts "" = List.last (GoStrings.Split text ",") ""
    /\ ((List.length (GoStrings.Split text ",") <= 12)%nat ->
        ts = GoStrings.Split text ",").
Proof.
  intros Hstale Harea Hreply Hxml.
  rewrite (getTimestamps_stale _ _ _ Hstale).
  rewrite (refreshTimestamps_ok _ _ _ _ _ _ _ Harea Hreply Hxml). cbn [fst].
  eexists. split; [reflexivity|].
  rewrite recentTimestamps_skipn.
  pose proof (Split_nonempty text ",") as Hne.
  split.
  - apply last_skipn. lia.
  - intros Hle. replace (_ - _)%nat with 0%nat by lia. reflexivity.
Qed.

(** ** [/frames] *)

Lemma getTimestamps_sent (U : Upstream) (area : string) (w : World) :
  (sent w <= sent (snd (Cached.getTimestamps U area w)) <= sent w + 1)%nat.
Proof.
  destruct (getTimestamps_cases U area w) as [(e & Hfound & Hbefore)|Hstale].
  - rewrite (getTimestamps_fresh _ _ _ _ Hfound Hbefore).
    unfold sent, logged; cbn [snd requests]. lia.
  - rewrite (getTimestamps_stale _ _ _ Hstale).
    destruct (radarLayers !! area) as [info|] eqn:Harea.
    + rewrite (refreshTimestamps_sends U area info w Harea). lia.
    + rewrite (refreshTimestamps_unknown _ _ _ Harea).
      unfold sent, logged; cbn [snd requests]. lia.
Qed.

(** X7. In a reachable world [/frames] answers either 200 with the JSON
    list [getTimestamps] returned, which has 1 to 12 entries, or 500 with
    the text of its error; it sends at most one request. *)
Theorem framesHandler_answers (U : Upstream) (r : Request) (w : World) :
  reachable w ->
  let got := Cached.getTimestamps U (requestArea r) w in
  let res := Cached.framesHandler U r w in
  snd res = snd got
  /\ (sent w <= sent (snd res) <= sent w + 1)%nat
  /\ ((exists ts,
          fst got = Ok ts
          /\ fst res = Responded {| Status := 200; ContentType := "application/json";
                                    Body := JSON ts |}
          /\ (1 <= List.length ts <= 12)%nat)
      \/ (exists err,
             fst got = Err err
             /\ fst res = httpError err 500)).
Proof.
  intros Hreach got res. subst got res.
  unfold Cached.framesHandler, bind. fold (requestArea r).
  pose proof (getTimestamps_bounded U (requestArea r) w
                (reachable_bounded w Hreach)) as [_ Hlen].
  pose proof (getTimestamps_sent U (requestArea r) w) as Hsent.
  destruct (Cached.getTimestamps U (requestArea r) w) as [[ts|err] w1];
    cbn [fst snd ret] in *.
  - split; [reflexivity|]. split; [exact Hsent|]. left. exists ts. auto.
  - split; [reflexivity|]. split; [exact Hsent|]. right. exists err. auto.
Qed.

(** X8. [/frames] for an area the table lacks: 500 with [invalid area:]
    and the area as written, one log line, nothing sent, cache untouched. *)
Theorem framesHandler_unknown_area (U : Upstream) (r : Request) (w : World) :
  reachable w ->
  radarLayers !! requestArea r = None ->
  Cached.framesHandler U r w
  = (httpError ("invalid area: " +:+ requestArea r) 500,
     logged w ("Fetching new timestamps for '" +:+ requestArea r +:+ "'")).
Proof.
  intros Hreach Harea. unfold Cached.framesHandler, bind. fold (requestArea r).
  rewrite (getTimestamps_unknown U _ w Hreach Harea). reflexivity.
Qed.

(** X9. The frame a tile request picks is the newest one [/frames] just
    listed: after [/frames] answered with [ts], a [/tiles/] request for the
    same area without [time] is served for the last element of [ts] straight
    from the cache. *)
Theorem tile_after_frames_uses_newest (U U' : Upstream) (r r' : Request)
  (w w1 : World) (ts : list string) :
  reachable w ->
  Cached.framesHandler U r w
  = (Responded {| Status := 200; ContentType := "application/json";
                  Body := JSON ts |}, w1) ->
  requestArea r' = requestArea r ->
  (5 <= List.length (segments r'))%nat ->
  GoUrl.Get (Query r') "time" = "" ->
  exists x y zoom,
    Cached.tileHandler U' r' w1
    = Cached.serveTile U' (requestArea r) (requestAlerts r') x y zoom
        (List.last ts "")
        (logged w1 ("Returning cached timestamps for '" +:+ requestArea r +:+ "'")).
Proof.
  intros Hreach Hframes Harea Hlen Htime.
  unfold Cached.framesHandler, bind in Hframes. fold (requestArea r) in Hframes.
  pose proof (getTimestamps_bounded U (requestArea r) w
                (reachable_bounded w Hreach)) as [_ Hb].
  destruct (Cached.getTimestamps U (requestArea r) w) as [[ts0|err] w0] eqn:Hcall;
    [|discriminate Hframes].
  cbn [ret fst] in *. injection Hframes as -> ->.
  specialize (Hb ts eq_refl).
  destruct (tileHandler_latest U' r' w1 Hlen Htime) as (x & y & zoom & ->).
  rewrite Harea.
  rewrite (getTimestamps_again_is_a_hit_aux U U' _ _ _ _ Hcall).
  destruct ts as [|t ts]; [simpl in Hb; lia|].
  eexists _, _, _. reflexivity.
Qed.

(** ** [/tiles/] of the [Cached] revision, continued *)

(** X10. A tile request that names a [time] never touches the timestamp
    cache, writes no log line and asks no server for its capabilities: at
    most the two GetMap requests go out. *)
Theorem tileHandler_with_time_bypasses_cache (U : Upstream) (r : Request)
  (w : World) :
  GoUrl.Get (Query r) "time" <> "" ->
  let res := Cached.tileHandler U r w in
  cache (snd res) = cache w
  /\ logs (snd res) = logs w
  /\ (sent w <= sent (snd res) <= sent w + 2)%nat.
Proof.
  intros Htime res. subst res.
  destruct (Nat.lt_ge_cases (List.length (segments r)) 5) as [Hshort|Hlen].
  - destruct (tileHandler_short_path U r w Hshort) as [msg ->].
    cbn [snd]. repeat split; lia.
  - destruct (tileHandler_with_time U r w Hlen Htime) as (x & y & zoom & ->).
    pose proof (serveTile_frame U (requestArea r) x y zoom
                  (GoUrl.Get (Query r) "time") (requestAlerts r) w) as (_ & Hc & Hl & Hs).
    cbv zeta in *. auto.
Qed.

(** X11. The order of the upstream requests for one tile of a configured
    area: first the GetMap request to the area's server; then, only when
    alerts are asked for and the base tile was fetched and decoded, the
    GetMap request to the hazards server for the same box and time. *)
Theorem serveTile_request_order (U : Upstream) (area : string) (info : WMSInfo)
  (showAlerts : bool) (x y zoom : Z) (timestamp : string) (w : World) :
  radarLayers !! area = Some info ->
  let bbox := Cached.tileToBoundingBox x y zoom in
  let baseURL := Cached.wmsURL info bbox timestamp in
  requests (snd (Cached.serveTile U area showAlerts x y zoom timestamp w))
  = (requests w ++ baseURL
       :: match tileOfReply U (roundTrip U (clock w) baseURL) with
          | Ok _ => if showAlerts
                    then [Cached.wmsURL hazardsLayer bbox timestamp]
                    else []
          | Err _ => []
          end)%list.
Proof.
  intros Harea bbox baseURL. subst baseURL.
  unfold Cached.serveTile, bind. rewrite Harea. cbn [default]. fold bbox.
  rewrite fetchWmsTile_sent by apply (radarLayers_scheme _ _ Harea).
  destruct (tileOfReply U _) as [radarImg|err]; [|reflexivity].
  destruct showAlerts; [|reflexivity].
  rewrite fetchWmsTile_sent by reflexivity.
  destruct (tileOfReply U _); cbn [snd ret afterGet requests];
    rewrite <- app_assoc; reflexivity.
Qed.

Lemma serveTile_outcome (U : Upstream) (area : string) (showAlerts : bool)
  (x y zoom : Z) (timestamp : string) (w : World) :
  (exists img, fst (Cached.serveTile U area showAlerts x y zoom timestamp w)
               = writePNG img)
  \/ (exists err, fst (Cached.serveTile U area showAlerts x y zoom timestamp w)
                  = httpError err StatusInternalServerError).
Proof.
  unfold Cached.serveTile, bind.
  destruct (Cached.fetchWmsTile U _ _ timestamp w) as [[radarImg|err] w1];
    [|right; eexists; reflexivity].
  destruct showAlerts; [|left; eexists; reflexivity].
  destruct (Cached.fetchWmsTile U hazardsLayer _ timestamp w1) as [[alertsImg|err] w2];
    left; eexists; reflexivity.
Qed.

(** X12. Every outcome of the tile handler: with fewer than five path
    segments it panics and the world is untouched; otherwise it answers 200
    with a PNG or 500 with a text, and has sent at most three requests. *)
Theorem tileHandler_outcomes (U : Upstream) (r : Request) (w : World) :
  let res := Cached.tileHandler U r w in
  ((List.length (segments r) < 5)%nat
   /\ exists msg, res = (Panicked msg, w))
  \/ ((5 <= List.length (segments r))%nat
      /\ ((exists img, fst res = writePNG img)
          \/ (exists err, fst res = httpError err StatusInternalServerError))
      /\ (sent w <= sent (snd res) <= sent w + 3)%nat).
Proof.
  intros res. subst res.
  destruct (Nat.lt_ge_cases (List.length (segments r)) 5) as [Hshort|Hlen].
  { left. split; [exact Hshort | apply tileHandler_short_path, Hshort]. }
  right. split; [exact Hlen|].
  destruct (String.eqb_spec (GoUrl.Get (Query r) "time") "") as [Htime|Htime].
  - destruct (tileHandler_latest U r w Hlen Htime) as (x & y & zoom & ->).
    pose proof (getTimestamps_sent U (requestArea r) w) as Hs.
    destruct (Cached.getTimestamps U (requestArea r) w) as [[ts|err] w1];
      cbn [snd] in Hs.
    + destruct ts as [|t ts].
      * cbn [fst snd]. split; [right; eexists; reflexivity | lia].
      * pose proof (serveTile_frame U (requestArea r) x y zoom
                      (List.last (t :: ts) "") (requestAlerts r) w1) as (_ & _ & _ & Hm).
        cbv zeta in Hm. split; [apply serveTile_outcome | lia].
    + cbn [fst snd]. split; [right; eexists; reflexivity | lia].
  - destruct (tileHandler_with_time U r w Hlen Htime) as (x & y & zoom & ->).
    pose proof (serveTile_frame U (requestArea r) x y zoom
                  (GoUrl.Get (Query r) "time") (requestAlerts r) w) as (_ & _ & _ & Hm).
    cbv zeta in Hm. split; [apply serveTile_outcome | lia].
Qed.

(** X13. The URL [fetchWmsTile] requests, for every layer, box and time:
    the layer's URL, a question mark and the parameters in key order with
    their values escaped; [TIME] is there exactly when the time is not
    empty. This revision sends no [STYLES]. *)
Theorem wmsURL_shape (wms : WMSInfo) (bbox time : string) :
  Cached.wmsURL wms bbox time
  = URL wms +:+ "?BBOX=" +:+ GoUrl.QueryEscape bbox
    +:+ "&CRS=EPSG%3A3857&FORMAT=image%2Fpng&HEIGHT=256&LAYERS="
    +:+ GoUrl.QueryEscape (LayerName wms)
    +:+ "&REQUEST=GetMap&SERVICE=WMS"
    +:+ (if String.eqb time "" then "" else "&TIME=" +:+ GoUrl.QueryEscape time)
    +:+ "&TRANSPARENT=true&VERSION=1.3.0&WIDTH=256".
Proof.
  unfold Cached.wmsURL. f_equal.
  destruct (String.eqb time ""); reflexivity.
Qed.

(** ** The earlier revisions, request by request *)




(** ** The bounding box of every valid tile *)

Lemma allInBlock_spec (P : int -> bool) (k : nat) (lo width : int) :
  Uint63.to_Z width = 2 ^ Z.of_nat k ->
  Uint63.to_Z lo + 2 ^ Z.of_nat k <= 2 ^ 63 ->
  allInBlock k lo width P = true ->
  forall i, Uint63.to_Z lo <= i < Uint63.to_Z lo + 2 ^ Z.of_nat k ->
            P (Uint63.of_Z i) = true.
Proof.
  revert lo width. induction k as [|k IH]; intros lo width Hwidth Hfit Hall i Hi.
  - simpl in *. replace i with (Uint63.to_Z lo) by lia.
    rewrite Uint63.of_to_Z. exact Hall.
  - cbn [allInBlock] in Hall. cbv zeta in Hall.
    apply andb_true_iff in Hall as [Hlow Hhigh].
    rewrite Nat2Z.inj_succ, Z.pow_succ_r in * by lia.
    assert (Hpos : 0 < 2 ^ Z.of_nat k) by (apply Z.pow_pos_nonneg; lia).
    pose proof (Uint63.to_Z_bounded lo) as Hlo.
    assert (Hhalf : Uint63.to_Z (PrimInt63.lsr width 1) = 2 ^ Z.of_nat k).
    { rewrite Uint63.lsr_spec, Hwidth, Uint63.to_Z_1, Z.pow_1_r.
      rewrite Z.mul_comm. apply Z.div_mul. lia. }
    assert (Hnext : Uint63.to_Z (PrimInt63.add lo (PrimInt63.lsr width 1))
                    = Uint63.to_Z lo + 2 ^ Z.of_nat k).
    { rewrite Uint63.add_spec, Hhalf. apply Z.mod_small.
      unfold Uint63.wB. change (Z.of_nat Uint63.size) with 63. lia. }
    destruct (Z.lt_ge_cases i (Uint63.to_Z lo + 2 ^ Z.of_nat k)).
    + apply (IH lo _ Hhalf); [lia | exact Hlow | lia].
    + apply (IH (PrimInt63.add lo (PrimInt63.lsr width 1)) _ Hhalf);
        [rewrite Hnext; lia | exact Hhigh | rewrite Hnext; lia].
Qed.

(** [float64(i)] of a non-negative [int] is the hardware conversion. *)
Lemma float64_of_uint63 (i : Z) :
  0 <= i < 2 ^ 63 ->
  GoMath.float64 i = PrimFloat.of_uint63 (Uint63.of_Z i).
Proof.
  intros Hi. unfold GoMath.float64.
  rewrite <- (SF2Prim_Prim2SF (PrimFloat.of_uint63 (Uint63.of_Z i))).
  rewrite of_uint63_spec, Uint63.of_Z_spec.
  rewrite Z.mod_small; [reflexivity|].
  unfold Uint63.wB. change (Z.of_nat Uint63.size) with 63. exact Hi.
Qed.

Lemma diagonals_in_order_upto_22 :
  forallb diagonalInOrder (seq 0 23) = true.
Proof. vm_compute. reflexivity. Qed.

Lemma diagonal_tile_in_order (zoom i : Z) :
  0 <= zoom <= 22 ->
  0 <= i < 2 ^ zoom ->
  boxInOrder (Simple.tileToBoundingBox i i zoom) = true.
Proof.
  intros Hzoom Hi.
  assert (Hdiag : diagonalInOrder (Z.to_nat zoom) = true).
  { pose proof diagonals_in_order_upto_22 as Hall.
    rewrite forallb_forall in Hall. apply Hall, in_seq. lia. }
  unfold diagonalInOrder in Hdiag. cbv zeta in Hdiag.
  rewrite Z2Nat.id in Hdiag by lia.
  assert (Hsmall : 2 ^ zoom <= 2 ^ 22) by (apply Z.pow_le_mono_r; lia).
  assert (Hwidth : Uint63.to_Z (Uint63.of_Z (2 ^ zoom)) = 2 ^ zoom).
  { rewrite Uint63.of_Z_spec. apply Z.mod_small.
    unfold Uint63.wB. change (Z.of_nat Uint63.size) with 63. lia. }
  pose proof (allInBlock_spec _ (Z.to_nat zoom) 0%uint63 _
                ltac:(rewrite Z2Nat.id by lia; exact Hwidth)
                ltac:(rewrite Z2Nat.id, Uint63.to_Z_0 by lia; lia)
                Hdiag i
                ltac:(rewrite Z2Nat.id, Uint63.to_Z_0 by lia; lia)) as Hbox.
  cbv beta in Hbox.
  rewrite <- (float64_of_uint63 i) in Hbox by lia.
  exact Hbox.
Qed.

(** X16. For every zoom from 0 to 22 and every column and row of that
    zoom's grid, the box [tileToBoundingBox] computes is not degenerate,
    [minX < maxX] and [minY < maxY], starts at or inside the west and north
    edges of the projection's square, and passes its east and south edges
    by less than a micrometre. *)
Theorem valid_tiles_have_ordered_boxes (x y zoom : Z) :
  0 <= zoom <= 22 ->
  0 <= x < 2 ^ zoom ->
  0 <= y < 2 ^ zoom ->
  let b := Simple.tileToBoundingBox x y zoom in
  (minX b <? maxX b)%float = true
  /\ (minY b <? maxY b)%float = true
  /\ (- originShift <=? minX b)%float = true
  /\ (maxX b <=? originShift + boxSlack)%float = true
  /\ (maxY b <=? originShift)%float = true
  /\ (- originShift - boxSlack <=? minY b)%float = true.
Proof.
  intros Hzoom Hx Hy b.
  pose proof (diagonal_tile_in_order zoom x Hzoom Hx) as Hcol.
  pose proof (diagonal_tile_in_order zoom y Hzoom Hy) as Hrow.
  unfold boxInOrder in Hcol, Hrow.
  repeat (apply andb_true_iff in Hcol as [Hcol ?]).
  repeat (apply andb_true_iff in Hrow as [Hrow ?]).
  subst b. cbn [minX maxX minY maxY Simple.tileToBoundingBox] in *.
  auto 10.
Qed.

(** ** From a tile path to its numbers *)

Lemma uintValue_grows (d : Decimal.uint) (acc : Z) :
  0 <= acc -> acc <= uintValue d acc.
Proof.
  revert acc. induction d as [|d IH|d IH|d IH|d IH|d IH|d IH|d IH|d IH|d IH|d IH];
    intros acc Hacc; cbn [uintValue]; try lia;
    match goal with
    | |- _ <= uintValue _ ?a => pose proof (IH a ltac:(lia)); lia
    end.
Qed.

(** One turn of the digit loop on a digit that does not overflow. *)
Lemma parseUintLoop_step (c : ascii) (rest : string) (acc k : Z) :
  GoStrconv.isDigit c = true ->
  GoStrconv.digitVal c = k ->
  0 <= acc -> 0 <= k ->
  acc * 10 + k <= GoStrconv.maxUint64 ->
  GoStrconv.parseUintLoop (String c rest) acc
  = GoStrconv.parseUintLoop rest (acc * 10 + k).
Proof.
  intros Hdigit Hval Hacc Hk Hfit. cbn [GoStrconv.parseUintLoop].
  rewrite Hdigit, Hval. unfold GoStrconv.maxUint64 in *.
  change (2 ^ 64 - 1) with 18446744073709551615 in *.
  change (18446744073709551615 / 10 + 1) with 1844674407370955162.
  destruct (Z.geb_spec acc 1844674407370955162); [lia|].
  cbv zeta. destruct (Z.gtb_spec (acc * 10 + k) 18446744073709551615); [lia|].
  reflexivity.
Qed.

Lemma parseUintLoop_numeral (d : Decimal.uint) (acc : Z) :
  0 <= acc ->
  uintValue d acc <= GoStrconv.maxUint64 ->
  GoStrconv.parseUintLoop (NilEmpty.string_of_uint d) acc = (uintValue d acc, None).
Proof.
  revert acc. induction d as [|d IH|d IH|d IH|d IH|d IH|d IH|d IH|d IH|d IH|d IH];
    intros acc Hacc Hfit; cbn [uintValue NilEmpty.string_of_uint] in *;
    try reflexivity;
    match type of Hfit with
    | uintValue _ (_ + ?k) <= _ =>
        pose proof (uintValue_grows d (acc * 10 + k) ltac:(lia)) as Hgrow;
        rewrite (parseUintLoop_step _ _ acc k) by (reflexivity || lia)
    end;
    (apply IH; [lia | exact Hfit]).
Qed.

Lemma uintValue_acc (d : Decimal.uint) (acc : positive) :
  uintValue d (Z.pos acc) = Z.pos (Pos.of_uint_acc d acc).
Proof.
  revert acc. induction d as [|d IH|d IH|d IH|d IH|d IH|d IH|d IH|d IH|d IH|d IH];
    intros acc; cbn [uintValue Pos.of_uint_acc]; try reflexivity;
    rewrite <- IH; f_equal; lia.
Qed.

Lemma uintValue_of_uint (d : Decimal.uint) :
  uintValue d 0 = Z.of_N (Pos.of_uint d).
Proof.
  induction d as [|d IH|d IH|d IH|d IH|d IH|d IH|d IH|d IH|d IH|d IH];
    cbn [uintValue Pos.of_uint]; try reflexivity; try exact IH;
    cbn [Z.mul Z.add]; apply uintValue_acc.
Qed.

Lemma uintValue_to_uint (p : positive) :
  uintValue (Pos.to_uint p) 0 = Z.pos p.
Proof. rewrite uintValue_of_uint, DecimalPos.Unsigned.of_to. reflexivity. Qed.

(** [Atoi] on an unsigned numeral and on a negated one. *)
Lemma Atoi_numeral (d : Decimal.uint) :
  d <> Decimal.Nil ->
  uintValue d 0 < 2 ^ 63 ->
  GoStrconv.Atoi (NilEmpty.string_of_uint d) = (uintValue d 0, None).
Proof.
  intros Hd Hfit.
  pose proof (parseUintLoop_numeral d 0 ltac:(lia)
                ltac:(unfold GoStrconv.maxUint64; lia)) as Hloop.
  remember (uintValue d 0) as v eqn:Hv.
  destruct d; try congruence; cbn [NilEmpty.string_of_uint] in *;
    unfold GoStrconv.Atoi; cbn [Ascii.eqb Bool.eqb orb negb andb];
    rewrite Hloop;
    (destruct (Z.geb_spec v (2 ^ 63)); [lia | reflexivity]).
Qed.

Lemma Atoi_negated_numeral (d : Decimal.uint) :
  d <> Decimal.Nil ->
  uintValue d 0 <= 2 ^ 63 ->
  GoStrconv.Atoi (String "-" (NilEmpty.string_of_uint d)) = (- uintValue d 0, None).
Proof.
  intros Hd Hfit.
  pose proof (parseUintLoop_numeral d 0 ltac:(lia)
                ltac:(unfold GoStrconv.maxUint64; lia)) as Hloop.
  remember (uintValue d 0) as v eqn:Hv.
  unfold GoStrconv.Atoi. cbn [Ascii.eqb Bool.eqb orb negb andb].
  destruct d; try congruence; cbn [NilEmpty.string_of_uint] in *;
    rewrite Hloop;
    (destruct (Z.gtb_spec v (2 ^ 63)); [lia | reflexivity]).
Qed.

Lemma Itoa_of_pos (p : positive) :
  NilZero.string_of_uint (Pos.to_uint p) = NilEmpty.string_of_uint (Pos.to_uint p).
Proof.
  pose proof (DecimalPos.Unsigned.to_uint_nonnil p) as Hnil.
  destruct (Pos.to_uint p); [congruence | reflexivity ..].
Qed.

(** What [Itoa] prints, [Atoi] reads back, over the whole range of
    [int]. *)
Lemma Atoi_Itoa (n : Z) :
  - 2 ^ 63 <= n < 2 ^ 63 ->
  GoStrconv.Atoi (GoStrconv.Itoa n) = (n, None).
Proof.
  intros Hn. unfold GoStrconv.Itoa. destruct n as [|p|p]; cbn [Z.to_int].
  - reflexivity.
  - cbn [NilZero.string_of_int]. rewrite Itoa_of_pos.
    rewrite Atoi_numeral; rewrite ?uintValue_to_uint;
      [reflexivity | apply DecimalPos.Unsigned.to_uint_nonnil | lia].
  - cbn [NilZero.string_of_int]. rewrite Itoa_of_pos.
    change (Ascii.Ascii true false true true false true false false) with "-"%char.
    rewrite Atoi_negated_numeral; rewrite ?uintValue_to_uint;
      [reflexivity | apply DecimalPos.Unsigned.to_uint_nonnil | lia].
Qed.

Lemma append_nil (s : string) : "" +:+ s = s.
Proof. reflexivity. Qed.

Lemma append_cons (c : ascii) (a b : string) :
  String c a +:+ b = String c (a +:+ b).
Proof. reflexivity. Qed.

Lemma length_append (a b : string) :
  String.length (a +:+ b) = (String.length a + String.length b)%nat.
Proof.
  induction a as [|c a IH]; [reflexivity|].
  rewrite append_cons. cbn [String.length]. rewrite IH. reflexivity.
Qed.

Lemma allBytes_append (P : ascii -> bool) (a b : string) :
  allBytes P (a +:+ b) = allBytes P a && allBytes P b.
Proof.
  induction a as [|c a IH]; [reflexivity|].
  rewrite append_cons. cbn [allBytes]. rewrite IH. apply andb_assoc.
Qed.

Lemma allBytes_weaken (P Q : ascii -> bool) (s : string) :
  (forall c, P c = true -> Q c = true) ->
  allBytes P s = true -> allBytes Q s = true.
Proof.
  intros HPQ. induction s as [|c s IH]; [reflexivity|].
  cbn [allBytes]. rewrite !andb_true_iff. intros [Hc Hs]. auto.
Qed.

(** [Split] cuts at the first separator; a piece without one is whole. *)
Lemma Split_whole (a : string) (sep : ascii) :
  allBytes (fun c => negb (Ascii.eqb c sep)) a = true ->
  GoStrings.Split a sep = [a].
Proof.
  induction a as [|c a IH]; [reflexivity|].
  cbn [allBytes GoStrings.Split]. intros [Hc Ha]%andb_true_iff.
  apply negb_true_iff in Hc. rewrite Hc, (IH Ha). reflexivity.
Qed.

Lemma Split_first (a rest : string) (sep : ascii) :
  allBytes (fun c => negb (Ascii.eqb c sep)) a = true ->
  GoStrings.Split (a +:+ String sep rest) sep = a :: GoStrings.Split rest sep.
Proof.
  induction a as [|c a IH].
  - intros _. rewrite append_nil. cbn [GoStrings.Split].
    rewrite Ascii.eqb_refl. reflexivity.
  - rewrite append_cons. cbn [allBytes GoStrings.Split].
    intros [Hc Ha]%andb_true_iff.
    apply negb_true_iff in Hc. rewrite Hc, (IH Ha). reflexivity.
Qed.

Lemma TrimSuffix_appended (s suffix : string) :
  suffix <> "" ->
  GoStrings.TrimSuffix (s +:+ suffix) suffix = s.
Proof.
  intros Hsuffix. induction s as [|c s IH].
  - rewrite append_nil. destruct suffix as [|c suffix]; [congruence|].
    cbn [GoStrings.TrimSuffix]. rewrite String.eqb_refl. reflexivity.
  - rewrite append_cons. cbn [GoStrings.TrimSuffix].
    destruct (String.eqb_spec (String c (s +:+ suffix)) suffix) as [Heq|_].
    + apply (f_equal String.length) in Heq. cbn [String.length] in Heq.
      rewrite length_append in Heq. lia.
    + rewrite IH. reflexivity.
Qed.

Lemma numeral_numeric (d : Decimal.uint) :
  allBytes numeric (NilEmpty.string_of_uint d) = true.
Proof.
  induction d; cbn [NilEmpty.string_of_uint allBytes]; try reflexivity;
    rewrite IHd; reflexivity.
Qed.

Lemma Itoa_numeric (n : Z) : allBytes numeric (GoStrconv.Itoa n) = true.
Proof.
  unfold GoStrconv.Itoa.
  destruct n as [|p|p]; cbn [Z.to_int NilZero.string_of_int]; try reflexivity;
    rewrite Itoa_of_pos; cbn [allBytes]; rewrite ?numeral_numeric; reflexivity.
Qed.

Lemma numeric_without (s : string) (sep : ascii) :
  numeric sep = false ->
  allBytes numeric s = true ->
  allBytes (fun c => negb (Ascii.eqb c sep)) s = true.
Proof.
  intros Hsep. apply allBytes_weaken.
  intros c Hc. apply negb_true_iff.
  destruct (Ascii.eqb_spec c sep) as [->|_]; [congruence | reflexivity].
Qed.

Lemma Itoa_without (n : Z) (sep : ascii) :
  numeric sep = false ->
  allBytes (fun c => negb (Ascii.eqb c sep)) (GoStrconv.Itoa n) = true.
Proof. intros Hsep. apply numeric_without; [exact Hsep | apply Itoa_numeric]. Qed.

Lemma segments_of_tilePath (zoom x y : Z) (q : GoUrl.Values) :
  segments (tileRequest (tilePath zoom x y) q)
  = [""; "tiles"; GoStrconv.Itoa zoom; GoStrconv.Itoa x;
     GoStrconv.Itoa y +:+ ".png"].
Proof.
  unfold segments, tileRequest, tilePath. cbn [Path].
  change ("/tiles/" +:+ ?s) with ("" +:+ String "/" ("tiles" +:+ String "/" s)).
  rewrite Split_first by reflexivity.
  rewrite Split_first by reflexivity.
  change (GoStrconv.Itoa zoom +:+ "/" +:+ ?s)
    with (GoStrconv.Itoa zoom +:+ String "/" s).
  rewrite Split_first by (apply Itoa_without; reflexivity).
  change (GoStrconv.Itoa x +:+ "/" +:+ ?s)
    with (GoStrconv.Itoa x +:+ String "/" s).
  rewrite Split_first by (apply Itoa_without; reflexivity).
  rewrite Split_whole; [reflexivity|].
  rewrite allBytes_append, Itoa_without by reflexivity. reflexivity.
Qed.

(** X17. The handlers read back the tile a client names: for every zoom,
    column and row in the range of [int], the path
    [/tiles/{zoom}/{x}/{y}.png] has five segments whose numbers parse, to
    those very values; so with a [time] parameter the [Cached] handler
    serves exactly that tile. *)
Theorem tile_path_is_read_back (zoom x y : Z) (q : GoUrl.Values) :
  - 2 ^ 63 <= zoom < 2 ^ 63 ->
  - 2 ^ 63 <= x < 2 ^ 63 ->
  - 2 ^ 63 <= y < 2 ^ 63 ->
  let r := tileRequest (tilePath zoom x y) q in
  List.length (segments r) = 5%nat
  /\ pathIsNumeric r = true
  /\ pathZoom r = zoom /\ pathX r = x /\ pathY r = y
  /\ forall U w,
      GoUrl.Get q "time" <> "" ->
      Cached.tileHandler U r w
      = Cached.serveTile U (requestArea r) (requestAlerts r) x y zoom
          (GoUrl.Get q "time") w.
Proof.
  intros Hzoom Hx Hy r.
  pose proof (segments_of_tilePath zoom x y q) as Hseg. fold r in Hseg.
  unfold pathIsNumeric, pathZoom, pathX, pathY. rewrite Hseg.
  cbn [nth List.length].
  rewrite TrimSuffix_appended by discriminate.
  rewrite !Atoi_Itoa by assumption. cbn [fst snd].
  repeat (split; [reflexivity|]).
  intros U w Htime.
  unfold Cached.tileHandler. fold (segments r). rewrite Hseg.
  cbn [index nth_error].
  rewrite TrimSuffix_appended by discriminate.
  rewrite !Atoi_Itoa by assumption. cbn [fst].
  apply String.eqb_neq in Htime.
  change (Query r) with q. rewrite Htime. reflexivity.
Qed.

(** ** The box as the upstream gets it *)

Lemma zeros_numeric (n : nat) : allBytes numeric (GoFmt.zeros n) = true.
Proof.
  induction n as [|n IH]; [reflexivity|].
  cbn [GoFmt.zeros]. rewrite allBytes_append, IH. reflexivity.
Qed.

Lemma fixed6_without_comma (micro : Z) :
  allBytes (fun c => negb (Ascii.eqb c ",")) (GoFmt.fixed6 micro) = true.
Proof.
  unfold GoFmt.fixed6, GoFmt.zeroPad.
  rewrite !allBytes_append, !Itoa_without by reflexivity.
  rewrite (numeric_without _ "," eq_refl (zeros_numeric _)).
  reflexivity.
Qed.

Lemma Sprintf_f_without_comma (v : float) :
  allBytes (fun c => negb (Ascii.eqb c ",")) (GoFmt.Sprintf_f v) = true.
Proof.
  unfold GoFmt.Sprintf_f.
  destruct (Prim2SF v) as [[]|[]| |[] m e];
    try reflexivity;
    rewrite allBytes_append, fixed6_without_comma; reflexivity.
Qed.

(** X18. The string the [Cached] revision hands to [fetchWmsTile] as the
    box always splits at its commas into exactly four fields, the four
    corners in the order minX, minY, maxX, maxY, each as [%f] prints it --
    for every tile, also where a corner is infinite or not a number. *)
Theorem tileToBoundingBox_has_four_fields (x y zoom : Z) :
  let b := Simple.tileToBoundingBox x y zoom in
  GoStrings.Split (Cached.tileToBoundingBox x y zoom) ","
  = [GoFmt.Sprintf_f (minX b); GoFmt.Sprintf_f (minY b);
     GoFmt.Sprintf_f (maxX b); GoFmt.Sprintf_f (maxY b)].
Proof.
  intros b. unfold Cached.tileToBoundingBox, formatBBox. fold b.
  rewrite !(append_cons "," "" _), !append_nil.
  rewrite (Split_first (GoFmt.Sprintf_f (minX b))) by apply Sprintf_f_without_comma.
  rewrite (Split_first (GoFmt.Sprintf_f (minY b))) by apply Sprintf_f_without_comma.
  rewrite (Split_first (GoFmt.Sprintf_f (maxX b))) by apply Sprintf_f_without_comma.
  rewrite Split_whole by apply Sprintf_f_without_comma. reflexivity.
Qed.

(** ** What counts as a fetched tile, and what as fetched capabilities *)

(** X19. [fetchWmsTile] returns an image only for a response with status
    200 whose body decodes to that image, and then exactly one request has
    gone out. *)
Theorem fetchWmsTile_image_needs_200 (U : Upstream) (wms : WMSInfo)
  (bbox time : string) (w w1 : World) (img : Image) :
  Cached.fetchWmsTile U wms bbox time w = (Ok img, w1) ->
  exists body,
    roundTrip U (clock w) (Cached.wmsURL wms bbox time) = HTTPResponse 200 body
    /\ imageDecode U body = Ok img
    /\ requests w1 = (requests w ++ [Cached.wmsURL wms bbox time])%list.
Proof.
  unfold Cached.fetchWmsTile, bind, clientGet.
  destruct (hasHTTPScheme (Cached.wmsURL wms bbox time)); [|discriminate].
  destruct (roundTrip U (clock w) (Cached.wmsURL wms bbox time)) as [err|code body];
    [discriminate|].
  unfold StatusOK. destruct (Z.eqb_spec code 200) as [->|_]; [|discriminate].
  cbn [negb ret]. intros [= Himg <-]. exists body. auto.
Qed.

(** X20. [getTimestamps] never looks at the status code of the
    capabilities response: two upstreams that differ only in status codes
    give the same result and the same world, so an error page that parses
    is cached like a good answer. *)
Theorem getTimestamps_ignores_status (U U' : Upstream) (area : string) (w : World) :
  sameButStatus U U' ->
  Cached.getTimestamps U area w = Cached.getTimestamps U' area w.
Proof.
  intros (Hreply & Hlat & Hxml).
  unfold Cached.getTimestamps, bind, cacheLookup, timeNow.
  assert (Hrefresh : forall w0, Cached.refreshTimestamps U area w0
                                = Cached.refreshTimestamps U' area w0).
  { intros w0. unfold Cached.refreshTimestamps, bind, logPrint, clientGet.
    destruct (radarLayers !! area) as [info|]; [|reflexivity].
    destruct (hasHTTPScheme _); [|reflexivity].
    cbn [clock]. rewrite Hlat.
    match goal with
    | |- context [roundTrip U ?t ?url] => specialize (Hreply t url);
        destruct (roundTrip U t url) as [e|c b], (roundTrip U' t url) as [e'|c' b'];
        try contradiction; subst
    end; [reflexivity|].
    rewrite Hxml. reflexivity. }
  destruct (cache w !! area) as [e|]; [|apply Hrefresh].
  destruct (clock w <? Expiry e); [reflexivity | apply Hrefresh].
Qed.

(** ** The further properties at sample inputs *)

Lemma second_call_after_first_hits :
  fst (Cached.getTimestamps hazardsDown "conus" (snd firstCall)) = Ok threeFrames
  /\ requests (snd (Cached.getTimestamps hazardsDown "conus" (snd firstCall)))
     = requests (snd firstCall).
Proof.
  pose proof (getTimestamps_again_is_a_hit healthy hazardsDown "conus"
                (startWorld 0) (snd firstCall) threeFrames
                ltac:(vm_compute; reflexivity)) as (Hres & Hreq & _).
  split; [exact Hres | exact Hreq].
Defined.

Lemma mars_error_keeps_cache :
  fst (Cached.getTimestamps healthy "mars" (startWorld 0)) = Err "invalid area: mars"
  /\ cache (snd (Cached.getTimestamps healthy "mars" (startWorld 0)))
     = cache (startWorld 0).
Proof.
  split; [vm_compute; reflexivity|].
  exact (proj1 (proj2 (getTimestamps_error_keeps_cache healthy "mars" (startWorld 0)
                         (snd (Cached.getTimestamps healthy "mars" (startWorld 0)))
                         "invalid area: mars" ltac:(vm_compute; reflexivity)))).
Defined.

Lemma guam_untouched_by_conus :
  "conus" <> "guam"
  /\ cache (snd (Cached.getTimestamps healthy "conus" warmWorld)) !! "guam"
     = cache warmWorld !! "guam".
Proof.
  split; [discriminate|].
  exact (getTimestamps_keeps_other_areas healthy "conus" "guam" warmWorld
           ltac:(discriminate)).
Defined.

Lemma start_asks_conus_once :
  stale (startWorld 0) "conus"
  /\ requests (snd (Cached.getTimestamps healthy "conus" (startWorld 0)))
     = [capabilitiesURL conusInfo].
Proof.
  split; [exact I|].
  exact (getTimestamps_expired_asks_once healthy "conus" (startWorld 0) conusInfo
           I eq_refl).
Defined.

Lemma warm_cache_is_small :
  reachable warmWorld /\ (size (cache warmWorld) <= 5)%nat.
Proof.
  assert (Hreach : reachable warmWorld)
    by (apply reachable_tile, reachable_start).
  split; [exact Hreach|].
  exact (proj2 (cache_holds_at_most_five warmWorld Hreach)).
Defined.

Lemma newest_of_three_frames :
  stale (startWorld 0) "conus"
  /\ exists ts,
      fst (Cached.getTimestamps healthy "conus" (startWorld 0)) = Ok ts
      /\ List.last ts "" = "2025-07-01T00:10:00.000Z".
Proof.
  split; [exact I|].
  destruct (getTimestamps_keeps_newest healthy "conus" (startWorld 0) conusInfo 200
              ("body of " +:+ capabilitiesURL conusInfo) sampleFrames
              I eq_refl eq_refl eq_refl) as (ts & Hres & Hlast & _).
  exists ts. split; [exact Hres | exact Hlast].
Defined.

Lemma frames_on_start_answers :
  reachable (startWorld 0)
  /\ snd (Cached.framesHandler healthy conusFrames (startWorld 0))
     = snd (Cached.getTimestamps healthy "conus" (startWorld 0)).
Proof.
  split; [apply reachable_start|].
  exact (proj1 (framesHandler_answers healthy conusFrames (startWorld 0)
                  (reachable_start 0))).
Defined.

Lemma frames_for_mars_is_500 :
  reachable (startWorld 0)
  /\ radarLayers !! requestArea marsFrames = None
  /\ fst (Cached.framesHandler healthy marsFrames (startWorld 0))
     = httpError "invalid area: mars" 500.
Proof.
  split; [apply reachable_start|]. split; [reflexivity|].
  rewrite (framesHandler_unknown_area healthy marsFrames (startWorld 0)
             (reachable_start 0) eq_refl).
  reflexivity.
Defined.

Lemma tile_after_frames_on_start :
  exists x y zoom,
    Cached.tileHandler hazardsDown sampleTile
      (snd (Cached.framesHandler healthy conusFrames (startWorld 0)))
    = Cached.serveTile hazardsDown "conus" false x y zoom
        "2025-07-01T00:10:00.000Z"
        (logged (snd (Cached.framesHandler healthy conusFrames (startWorld 0)))
           "Returning cached timestamps for 'conus'").
Proof.
  exact (tile_after_frames_uses_newest healthy hazardsDown conusFrames sampleTile
           (startWorld 0)
           (snd (Cached.framesHandler healthy conusFrames (startWorld 0)))
           threeFrames (reachable_start 0)
           ltac:(vm_compute; reflexivity) eq_refl
           ltac:(vm_compute; lia) eq_refl).
Defined.

Lemma timed_tile_leaves_cache :
  GoUrl.Get (Query sampleTileAt) "time" <> ""
  /\ cache (snd (Cached.tileHandler healthy sampleTileAt warmWorld))
     = cache warmWorld.
Proof.
  split; [discriminate|].
  exact (proj1 (tileHandler_with_time_bypasses_cache healthy sampleTileAt warmWorld
                  ltac:(discriminate))).
Defined.

Lemma overlay_requested_after_base :
  radarLayers !! "conus" = Some conusInfo
  /\ requests (snd (Cached.serveTile healthy "conus" true 79 98 8 sampleTime
                      (startWorld 0)))
     = [Cached.wmsURL conusInfo (Cached.tileToBoundingBox 79 98 8) sampleTime;
        Cached.wmsURL hazardsLayer (Cached.tileToBoundingBox 79 98 8) sampleTime].
Proof.
  split; [reflexivity|].
  exact (serveTile_request_order healthy "conus" conusInfo true 79 98 8 sampleTime
           (startWorld 0) eq_refl).
Defined.

Lemma tile_8_79_98_in_order :
  0 <= 8 <= 22 /\ 0 <= 79 < 2 ^ 8 /\ 0 <= 98 < 2 ^ 8
  /\ (minX (Simple.tileToBoundingBox 79 98 8)
      <? maxX (Simple.tileToBoundingBox 79 98 8))%float = true.
Proof.
  assert (Hz : 0 <= 8 <= 22) by lia.
  assert (Hx : 0 <= 79 < 2 ^ 8) by lia.
  assert (Hy : 0 <= 98 < 2 ^ 8) by lia.
  split; [exact Hz|]. split; [exact Hx|]. split; [exact Hy|].
  exact (proj1 (valid_tiles_have_ordered_boxes 79 98 8 Hz Hx Hy)).
Defined.

Lemma path_8_79_98_read_back :
  tilePath 8 79 98 = "/tiles/8/79/98.png"
  /\ pathZoom (tileRequest (tilePath 8 79 98) []) = 8
  /\ pathX (tileRequest (tilePath 8 79 98) []) = 79
  /\ pathY (tileRequest (tilePath 8 79 98) []) = 98.
Proof.
  split; [reflexivity|].
  destruct (tile_path_is_read_back 8 79 98 []
              ltac:(lia)
              ltac:(lia)
              ltac:(lia))
    as (_ & _ & Hz & Hx & Hy & _).
  split; [exact Hz|]. split; [exact Hx | exact Hy].
Defined.

Lemma healthy_tile_was_a_200 :
  exists body,
    roundTrip healthy 0
      (Cached.wmsURL conusInfo (Cached.tileToBoundingBox 79 98 8) sampleTime)
    = HTTPResponse 200 body
    /\ imageDecode healthy body = Ok (Decoded body).
Proof.
  destruct (fetchWmsTile_image_needs_200 healthy conusInfo
              (Cached.tileToBoundingBox 79 98 8) sampleTime (startWorld 0)
              (snd (Cached.fetchWmsTile healthy conusInfo
                      (Cached.tileToBoundingBox 79 98 8) sampleTime (startWorld 0)))
              (Decoded ("body of " +:+ Cached.wmsURL conusInfo
                                         (Cached.tileToBoundingBox 79 98 8) sampleTime))
              ltac:(vm_compute; reflexivity)) as (body & Hreply & Himg & _).
  exists body. split; [exact Hreply|].
  injection Hreply as <-. reflexivity.
Defined.

Lemma frames_cached_from_503 :
  sameButStatus healthy allUnavailable
  /\ fst (Cached.getTimestamps allUnavailable "conus" (startWorld 0)) = Ok threeFrames.
Proof.
  assert (Hsame : sameButStatus healthy allUnavailable).
  { split; [|split]; intros; reflexivity. }
  split; [exact Hsame|].
  rewrite <- (getTimestamps_ignores_status healthy allUnavailable "conus"
                (startWorld 0) Hsame).
  vm_compute. reflexivity.
Defined.
